(** * Traccar OsmAnd client: a shallow embedding of [traccar_client.py]
      and of the event glue of [main.py].

    Python values are modelled by the inductive [value]; a Python [float]
    is an IEEE-754 binary64 number, represented by [spec_float] with the
    operations of [SpecFloat] at precision 53; a [dict] is an
    insertion-ordered association list with unique keys; exceptions are
    results of an error monad; network and console effects are recorded in
    an explicit trace. *)

From Stdlib Require Import ZArith List String Ascii Bool Lia.
From Stdlib Require Import Floats.SpecFloat.
From Stdlib Require Import DecimalString DecimalPos DecimalZ.
Import ListNotations.
Open Scope string_scope.
Open Scope Z_scope.

(** ** Python floats (binary64) *)

Module PyFloat.

Definition prec : Z := 53.
Definition emax : Z := 1024.

(** [float(n)] for an integer [n]: the nearest binary64 number. *)
Definition of_Z (n : Z) : spec_float :=
  binary_normalize prec emax n 0 false.

(** An integer as an exact, unrounded float. *)
Definition exact (n : Z) : spec_float :=
  match n with
  | Z0 => S754_zero false
  | Zpos m => S754_finite false m 0
  | Zneg m => S754_finite true m 0
  end.

(** [a / b] on Python integers (true division): the exact quotient,
    rounded once.  Division by zero is not needed here. *)
Definition of_ratio (a b : Z) : spec_float :=
  SFdiv prec emax (exact a) (exact b).

Definition mul (x y : spec_float) : spec_float := SFmul prec emax x y.

(** The signed integer mantissa of a finite float. *)
Definition signed (s : bool) (m : positive) : Z :=
  if s then Z.neg m else Z.pos m.

(** [int(x)]: truncation towards zero.  Python raises on infinities and
    NaN ([OverflowError], [ValueError]); [None] stands for that. *)
Definition trunc (x : spec_float) : option Z :=
  match x with
  | S754_zero _ => Some 0
  | S754_finite s m e =>
      Some (if 0 <=? e then signed s m * 2 ^ e
            else Z.quot (signed s m) (2 ^ (- e)))
  | S754_infinity _ | S754_nan => None
  end.

(** Exact comparison of a float with an integer, as Python's
    [float_richcompare] performs it: [None] when the float is a NaN (every
    ordered comparison is then false). *)
Definition compare_Z (x : spec_float) (z : Z) : option comparison :=
  match x with
  | S754_nan => None
  | S754_infinity s => Some (if s then Lt else Gt)
  | S754_zero _ => Some (0 ?= z)
  | S754_finite s m e =>
      Some (if 0 <=? e then (signed s m * 2 ^ e ?= z)
            else (signed s m ?= z * 2 ^ (- e)))
  end.

(** [z <= x] and [x <= z]. *)
Definition Z_le (z : Z) (x : spec_float) : bool :=
  match compare_Z x z with
  | Some Gt | Some Eq => true
  | _ => false
  end.

Definition le_Z (x : spec_float) (z : Z) : bool :=
  match compare_Z x z with
  | Some Lt | Some Eq => true
  | _ => false
  end.

End PyFloat.

(** ** [datetime] objects

    A timezone-aware [datetime] with a fixed UTC offset.  (For a naive
    [datetime], [timestamp()] consults the local time zone of the host,
    which is outside the program.) *)

Record datetime := mk_datetime {
  dt_year : Z;
  dt_month : Z;
  dt_day : Z;
  dt_hour : Z;
  dt_minute : Z;
  dt_second : Z;
  dt_microsecond : Z;
  dt_utcoffset : Z   (* seconds east of UTC *)
}.

Module Datetime.

Definition is_leap (y : Z) : bool :=
  (y mod 4 =? 0) && (negb (y mod 100 =? 0) || (y mod 400 =? 0)).

Definition days_before_year (y : Z) : Z :=
  let y := y - 1 in y * 365 + y / 4 - y / 100 + y / 400.

Definition days_before_month (y m : Z) : Z :=
  nth (Z.to_nat m)
      [0; 0; 31; 59; 90; 120; 151; 181; 212; 243; 273; 304; 334] 0
  + (if (2 <? m) && is_leap y then 1 else 0).

(** The proleptic Gregorian ordinal; day 1 is 0001-01-01. *)
Definition ymd2ord (y m d : Z) : Z :=
  days_before_year y + days_before_month y m + d.

Definition epoch_ordinal : Z := ymd2ord 1970 1 1.

(** [(self - epoch) // timedelta(microseconds=1)]: the exact number of
    microseconds since 1970-01-01T00:00:00Z. *)
Definition epoch_microseconds (d : datetime) : Z :=
  ((ymd2ord (dt_year d) (dt_month d) (dt_day d) - epoch_ordinal) * 86400
   + dt_hour d * 3600 + dt_minute d * 60 + dt_second d
   - dt_utcoffset d) * 1000000
  + dt_microsecond d.

(** [d.timestamp()]: [(self - epoch).total_seconds()], the microsecond
    count divided by [10**6] as a float. *)
Definition timestamp (d : datetime) : spec_float :=
  PyFloat.of_ratio (epoch_microseconds d) 1000000.

(** The instant in whole milliseconds, computed exactly. *)
Definition exact_epoch_millis (d : datetime) : Z :=
  epoch_microseconds d / 1000.

End Datetime.

Definition utc (y mo d h mi s us : Z) : datetime :=
  mk_datetime y mo d h mi s us 0.

(** ** Python values, exceptions and dictionaries *)

Inductive value :=
| VNone
| VBool (b : bool)
| VInt (n : Z)
| VFloat (x : spec_float)
| VStr (s : string)
| VDatetime (d : datetime)
| VSession (h : nat).       (* an [aiohttp.ClientSession] object *)

(** The exception classes the program meets.  The [Client...] classes and
    their bases are those of [aiohttp.client_exceptions]; [TimeoutError] is
    [asyncio.TimeoutError], which aiohttp raises when the total timeout of a
    request expires. *)
Inductive exn_class :=
| BaseException | Exception
| ValueError | TypeError | AttributeError | OverflowError | OSError
| TimeoutError | CancelledError
| ClientError | ClientConnectionError | ClientOSError | ClientConnectorError.

(** An exception: its class and its message.  The messages of the
    exceptions raised by the program itself ([ValueError], [ClientError])
    are those of the source; the messages of the exceptions raised by the
    interpreter ([TypeError] of a call, [AttributeError] of a lookup) are
    abridged, and the properties below are on their classes. *)
Record exn := mk_exn { exn_cls : exn_class; exn_msg : string }.

(** The direct base classes of each exception class. *)
Definition bases (c : exn_class) : list exn_class :=
  match c with
  | BaseException => []
  | Exception => [BaseException]
  | ValueError | TypeError | AttributeError | OSError => [Exception]
  | OverflowError => [Exception]
  | TimeoutError => [OSError]
  | CancelledError => [BaseException]
  | ClientError => [Exception]
  | ClientConnectionError => [ClientError]
  | ClientOSError => [ClientConnectionError; OSError]
  | ClientConnectorError => [ClientOSError]
  end.

Definition exn_class_eqb (c d : exn_class) : bool :=
  match c, d with
  | BaseException, BaseException | Exception, Exception
  | ValueError, ValueError | TypeError, TypeError
  | AttributeError, AttributeError | OverflowError, OverflowError
  | OSError, OSError | TimeoutError, TimeoutError
  | CancelledError, CancelledError | ClientError, ClientError
  | ClientConnectionError, ClientConnectionError
  | ClientOSError, ClientOSError
  | ClientConnectorError, ClientConnectorError => true
  | _, _ => false
  end.

(** [issubclass c d]; the hierarchy is at most five levels deep. *)
Fixpoint issubclass_fuel (fuel : nat) (c d : exn_class) : bool :=
  exn_class_eqb c d ||
  match fuel with
  | O => false
  | S fuel' => existsb (fun b => issubclass_fuel fuel' b d) (bases c)
  end.

Definition issubclass : exn_class -> exn_class -> bool := issubclass_fuel 5.

(** [isinstance(e, c)], that is, whether [except c] catches [e]. *)
Definition catches (c : exn_class) (e : exn) : bool :=
  issubclass (exn_cls e) c.

Inductive result (A : Type) :=
| Return (a : A)
| Raise (e : exn).
Arguments Return {A} a.
Arguments Raise {A} e.

(** A [dict] with string keys: insertion ordered, one entry per key. *)
Definition dict := list (string * value).

Module Dict.

Fixpoint get (k : string) (d : dict) : option value :=
  match d with
  | [] => None
  | (k', v) :: d' => if String.eqb k k' then Some v else get k d'
  end.

(** [d[k] = v]: an existing key keeps its place, a new one goes last. *)
Fixpoint set (k : string) (v : value) (d : dict) : dict :=
  match d with
  | [] => [(k, v)]
  | (k', v') :: d' =>
      if String.eqb k k' then (k', v) :: d' else (k', v') :: set k v d'
  end.

(** [d.update(other)]. *)
Definition update (d other : dict) : dict :=
  fold_left (fun acc kv => set (fst kv) (snd kv) acc) other d.

Definition mem (k : string) (d : dict) : bool :=
  match get k d with Some _ => true | None => false end.

Fixpoint unique_keys (d : dict) : bool :=
  match d with
  | [] => true
  | (k, _) :: d' => negb (mem k d') && unique_keys d'
  end.

End Dict.

(** ** Truth value, [isinstance] and comparisons *)

(** [bool(v)], as [not v] and [x if v else y] use it. *)
Definition truthy (v : value) : bool :=
  match v with
  | VNone => false
  | VBool b => b
  | VInt n => negb (n =? 0)
  | VFloat (S754_zero _) => false
  | VFloat _ => true
  | VStr s => negb (String.eqb s "")
  | VDatetime _ => true
  | VSession _ => true
  end.

Definition is_none (v : value) : bool :=
  match v with VNone => true | _ => false end.

(** [isinstance(v, (int, float))]; [bool] is a subclass of [int]. *)
Definition isinstance_int_float (v : value) : bool :=
  match v with
  | VBool _ | VInt _ | VFloat _ => true
  | _ => false
  end.

(** [lo <= v <= hi] for integer literals [lo], [hi] and a number [v].
    The program evaluates it only after [isinstance_int_float v]; on the
    other values (where Python would raise [TypeError]) it is [false]. *)
Definition between (lo hi : Z) (v : value) : bool :=
  match v with
  | VBool b => (lo <=? Z.b2z b) && (Z.b2z b <=? hi)
  | VInt n => (lo <=? n) && (n <=? hi)
  | VFloat x => PyFloat.Z_le lo x && PyFloat.le_Z x hi
  | _ => false
  end.

(** [str(n)] for an integer. *)
Definition str_of_Z (n : Z) : string := NilZero.string_of_int (Z.to_int n).

(** [s.rstrip('/')]. *)
Fixpoint rstrip_slash (s : string) : string :=
  match s with
  | EmptyString => EmptyString
  | String c s' =>
      match rstrip_slash s' with
      | EmptyString => if Ascii.eqb c "/" then EmptyString
                       else String c EmptyString
      | r => String c r
      end
  end.

(** ** Effects: the trace of observable actions and the error monad *)

Inductive event :=
| EvSessionOpen (h : nat)                         (* aiohttp.ClientSession() *)
| EvGet (h : nat) (url : string) (params : dict) (timeout : value)
                                                    (* session.get(...) *)
| EvPrint (line : string)                         (* print(...) *)
| EvSessionClose (h : nat).                       (* session.close() *)

Definition trace := list event.

(** What the network answers to a request. *)
Inductive body_outcome :=
| BodyText (text : string)
| BodyRaises (e : exn).

Inductive get_outcome :=
| GetRaises (e : exn)                        (* refused, DNS, timeout, ... *)
| GetResponse (status : Z) (body : body_outcome).

(** The world around one call: the handle of the session object that
    [aiohttp.ClientSession()] would allocate, and the answer of the network
    to each request. *)
Record env := mk_env {
  new_session : nat;
  http_get : nat -> string -> dict -> value -> get_outcome
}.

Definition M (A : Type) : Type := trace -> result A * trace.

Definition ret {A} (a : A) : M A := fun t => (Return a, t).

Definition raise {A} (e : exn) : M A := fun t => (Raise e, t).

Definition bind {A B} (m : M A) (k : A -> M B) : M B :=
  fun t =>
    match m t with
    | (Return a, t') => k a t'
    | (Raise e, t') => (Raise e, t')
    end.

Definition emit (ev : event) : M unit := fun t => (Return tt, (t ++ [ev])%list).

Definition lift {A} (r : result A) : M A := fun t => (r, t).

(** [try: m  except Exception as e: h e].  [CancelledError] and the other
    direct children of [BaseException] pass through. *)
Definition try_except {A} (m : M A) (h : exn -> M A) : M A :=
  fun t =>
    match m t with
    | (Raise e, t') => if catches Exception e then h e t' else (Raise e, t')
    | r => r
    end.

(** [try: m  finally: fin].  An exception of [fin] replaces the outcome
    of [m]. *)
Definition try_finally {A} (m : M A) (fin : M unit) : M A :=
  fun t =>
    match m t with
    | (r, t') =>
        match fin t' with
        | (Return _, t'') => (r, t'')
        | (Raise e, t'') => (Raise e, t'')
        end
    end.

Declare Scope py_scope.
Delimit Scope py_scope with py.
Notation "x <- m ;; k" := (bind m (fun x => k))
  (at level 61, m at next level, right associativity) : py_scope.
Notation "m ;;; k" := (bind m (fun _ => k))
  (at level 61, right associativity) : py_scope.
Open Scope py_scope.

(** ** [send_osmand_position]: the signature *)

(** The arguments after binding: each parameter of the signature, and
    the dictionary [custom_attributes] of the remaining keywords. *)
Record args := mk_args {
  traccar_url : value;
  device_id : value;
  lat : value;
  lon : value;
  timestamp : value;
  speed : value;
  bearing : value;
  altitude : value;
  accuracy : value;
  hdop : value;
  battery : value;
  charge : value;
  valid : value;
  driver_unique_id : value;
  session : value;
  timeout : value;
  custom_attributes : dict
}.

(** A call of [send_osmand_position]: the positional arguments and the
    keyword arguments, in the order they are written. *)
Record call := mk_call {
  pos_args : list value;
  kw_args : dict
}.

Definition positional_names : list string :=
  ["traccar_url"; "device_id"; "lat"; "lon"].

Definition keyword_only_names : list string :=
  ["timestamp"; "speed"; "bearing"; "altitude"; "accuracy"; "hdop";
   "battery"; "charge"; "valid"; "driver_unique_id"; "session"; "timeout"].

Definition parameter_names : list string :=
  positional_names ++ keyword_only_names.

Definition is_parameter_name (k : string) : bool :=
  existsb (String.eqb k) parameter_names.

(** The [i]-th positional-or-keyword parameter [name]. *)
Definition bind_positional (c : call) (i : nat) (name : string)
  : result value :=
  match nth_error (pos_args c) i, Dict.get name (kw_args c) with
  | Some v, None => Return v
  | None, Some v => Return v
  | Some _, Some _ =>
      Raise (mk_exn TypeError
        ("send_osmand_position() got multiple values for argument '"
           ++ name ++ "'"))
  | None, None =>
      Raise (mk_exn TypeError
        ("send_osmand_position() missing required positional argument: '"
           ++ name ++ "'"))
  end.

(** A keyword-only parameter with its default. *)
Definition bind_keyword (c : call) (name : string) (default : value)
  : value :=
  match Dict.get name (kw_args c) with
  | Some v => v
  | None => default
  end.

Definition rbind {A B} (r : result A) (k : A -> result B) : result B :=
  match r with
  | Return a => k a
  | Raise e => Raise e
  end.

(** Python's binding of a call to the signature (lines 16-35): more than
    four positional arguments, a repeated keyword, a parameter given both
    by position and by keyword, or a missing required parameter raise
    [TypeError] before the body runs; keywords that name no parameter are
    collected, in order, in [custom_attributes]. *)
Definition bind_arguments (c : call) : result args :=
  if (4 <? List.length (pos_args c))%nat then
    Raise (mk_exn TypeError
      ("send_osmand_position() takes 4 positional arguments but "
         ++ str_of_Z (Z.of_nat (List.length (pos_args c))) ++ " were given"))
  else if negb (Dict.unique_keys (kw_args c)) then
    Raise (mk_exn TypeError
      "send_osmand_position() got multiple values for keyword argument")
  else
    rbind (bind_positional c 0 "traccar_url") (fun a_url =>
    rbind (bind_positional c 1 "device_id") (fun a_id =>
    rbind (bind_positional c 2 "lat") (fun a_lat =>
    rbind (bind_positional c 3 "lon") (fun a_lon =>
    Return {|
      traccar_url := a_url;
      device_id := a_id;
      lat := a_lat;
      lon := a_lon;
      timestamp := bind_keyword c "timestamp" VNone;
      speed := bind_keyword c "speed" VNone;
      bearing := bind_keyword c "bearing" VNone;
      altitude := bind_keyword c "altitude" VNone;
      accuracy := bind_keyword c "accuracy" VNone;
      hdop := bind_keyword c "hdop" VNone;
      battery := bind_keyword c "battery" VNone;
      charge := bind_keyword c "charge" VNone;
      valid := bind_keyword c "valid" VNone;
      driver_unique_id := bind_keyword c "driver_unique_id" VNone;
      session := bind_keyword c "session" VNone;
      timeout := bind_keyword c "timeout" (VInt 30);
      custom_attributes :=
        filter (fun kv => negb (is_parameter_name (fst kv))) (kw_args c)
    |})))).

(** ** [send_osmand_position]: the body *)

(** Lines 107-113: validation of the required parameters. *)
Definition validate (a : args) : result unit :=
  if negb (truthy (device_id a)) then
    Raise (mk_exn ValueError "device_id is required")
  else if negb (isinstance_int_float (lat a)) || negb (between (-90) 90 (lat a))
  then
    Raise (mk_exn ValueError "lat must be a number between -90 and 90")
  else if negb (isinstance_int_float (lon a))
          || negb (between (-180) 180 (lon a))
  then
    Raise (mk_exn ValueError "lon must be a number between -180 and 180")
  else Return tt.

(** [int(timestamp.timestamp() * 1000)] on a [datetime]: the float number of
    seconds, times the float [1000.0], truncated. *)
Definition timestamp_millis (d : datetime) : option Z :=
  PyFloat.trunc (PyFloat.mul (Datetime.timestamp d) (PyFloat.of_Z 1000)).

(** Line 125, on the values of [value]: of these only a [datetime] has a
    [timestamp] method; [None], [bool], [int], [float], [str] and a client
    session have none, and the attribute lookup raises.  (The line is
    duck-typed: an object of another class that has such a method would be
    converted; [value] has no such object.) *)
Definition encode_timestamp (v : value) : result value :=
  match v with
  | VDatetime d =>
      match timestamp_millis d with
      | Some ms => Return (VInt ms)
      | None =>
          Raise (mk_exn OverflowError "cannot convert float to integer")
      end
  | _ => Raise (mk_exn AttributeError "object has no attribute 'timestamp'")
  end.

(** ["true" if v else "false"]. *)
Definition str_bool (v : value) : value :=
  VStr (if truthy v then "true" else "false").

(** [if v is not None: params[key] = f v]. *)
Definition set_if_given (key : string) (v : value) (f : value -> value)
    (params : dict) : dict :=
  if is_none v then params else Dict.set key (f v) params.

(** Lines 116-155: the parameter dictionary. *)
Definition build_params (a : args) : result dict :=
  let params := [("id", device_id a); ("lat", lat a); ("lon", lon a)] in
  rbind (if is_none (timestamp a) then Return params
         else rbind (encode_timestamp (timestamp a)) (fun ms =>
              Return (Dict.set "timestamp" ms params))) (fun params =>
  let params := set_if_given "speed" (speed a) id params in
  let params := set_if_given "bearing" (bearing a) id params in
  let params := set_if_given "altitude" (altitude a) id params in
  let params := set_if_given "accuracy" (accuracy a) id params in
  let params := set_if_given "hdop" (hdop a) id params in
  let params := set_if_given "batt" (battery a) id params in
  let params := set_if_given "charge" (charge a) str_bool params in
  let params := set_if_given "valid" (valid a) str_bool params in
  let params :=
    set_if_given "driverUniqueId" (driver_unique_id a) id params in
  Return (Dict.update params (custom_attributes a))).

(** Line 158: [traccar_url.rstrip('/')]. *)
Definition strip_url (v : value) : result string :=
  match v with
  | VStr s => Return (rstrip_slash s)
  | _ => Raise (mk_exn AttributeError "object has no attribute 'rstrip'")
  end.

(** [aiohttp.ClientSession()]. *)
Definition client_session (w : env) : M value :=
  emit (EvSessionOpen (new_session w)) ;;; ret (VSession (new_session w)).

(** [async with session.get(url, params=..., timeout=...) as response],
    up to the arrival of the response. *)
Definition session_get (w : env) (s : value) (url : string) (params : dict)
    (tmo : value) : M (Z * body_outcome) :=
  match s with
  | VSession h =>
      emit (EvGet h url params tmo) ;;;
      match http_get w h url params tmo with
      | GetRaises e => raise e
      | GetResponse status body => ret (status, body)
      end
  | _ => raise (mk_exn AttributeError "object has no attribute 'get'")
  end.

(** [await response.text()]. *)
Definition response_text (body : body_outcome) : M string :=
  match body with
  | BodyText text => ret text
  | BodyRaises e => raise e
  end.

Definition print (line : string) : M unit := emit (EvPrint line).

(** [await session.close()]. *)
Definition session_close (s : value) : M unit :=
  match s with
  | VSession h => emit (EvSessionClose h)
  | _ => raise (mk_exn AttributeError "object has no attribute 'close'")
  end.

Definition failure_message (status : Z) (error_text : string) : string :=
  "Traccar request failed with status " ++ str_of_Z status ++ ": "
    ++ error_text.

Definition success_message (status : Z) : string :=
  "Traccar request succeeded with status " ++ str_of_Z status.

(** Lines 107-192. *)
Definition send_osmand_position (w : env) (a : args) : M value :=
  _ <- lift (validate a) ;;
  params <- lift (build_params a) ;;
  url <- lift (strip_url (traccar_url a)) ;;
  sc <- (if is_none (session a)
         then s <- client_session w ;; ret (s, true)
         else ret (session a, false)) ;;
  let '(session, close_session) := sc in
  try_finally
    (try_except
       (response <- session_get w session url params (timeout a) ;;
        let '(status, body) := response in
        let success := status =? 200 in
        if negb success then
          error_text <- response_text body ;;
          raise (mk_exn ClientError (failure_message status error_text))
        else
          print (success_message status) ;;;
          ret (VBool success))
       (fun e => raise e))
    (if close_session then session_close session else ret tt).

(** A call from the outside: binding, then the body, from an empty
    trace. *)
Definition call_send (w : env) (c : call) : result value * trace :=
  match bind_arguments c with
  | Return a => send_osmand_position w a []
  | Raise e => (Raise e, [])
  end.

(** ** The event glue of [main.py] *)

Module Main.

(** [GpsPositionEvent] and [BatteryEvent] of [deebot_client.events];
    the battery level is an [int]. *)
Record GpsPositionEvent := mk_gps {
  latitude : value;
  longitude : value
}.

Record BatteryEvent := mk_battery { battery_value : Z }.

Inductive device_event :=
| Gps (e : GpsPositionEvent)
| Battery (e : BatteryEvent)
| Positions (repr : string).

(** The module-level configuration: [traccar_url] comes from
    [os.getenv], [did] from [bot.device_info]. *)
Record config := mk_config {
  cfg_traccar_url : value;
  cfg_did : value
}.

(** The module-level variable. *)
Record globals := mk_globals { lastKnownBattery : value }.

Definition initial : globals := {| lastKnownBattery := VNone |}.

(** The call made by [sendGpsPositionToTraccar] (line 28). *)
Definition gps_call (cfg : config) (g : globals) (e : GpsPositionEvent)
  : call :=
  {| pos_args := [cfg_traccar_url cfg; cfg_did cfg; latitude e; longitude e];
     kw_args := [("battery", lastKnownBattery g)] |}.

(** The awaited call's value is dropped: the function returns [None]; an
    exception of the call goes on to the caller. *)
Definition sendGpsPositionToTraccar (w : env) (cfg : config) (g : globals)
    (e : GpsPositionEvent) : result value * trace :=
  match call_send w (gps_call cfg g e) with
  | (Return _, t) => (Return VNone, t)
  | (Raise x, t) => (Raise x, t)
  end.

(** The three handlers of [main] (lines 46-54): the globals they leave
    and what they do. *)
Definition on_gps_position (w : env) (cfg : config) (g : globals)
    (e : GpsPositionEvent) : globals * trace :=
  (g, snd (sendGpsPositionToTraccar w cfg g e)).

Definition on_battery (g : globals) (e : BatteryEvent) : globals * trace :=
  ({| lastKnownBattery := VInt (battery_value e) |}, []).

Definition on_positions (g : globals) (repr : string) : globals * trace :=
  (g, [EvPrint ("POS " ++ repr)]).

(** [bot.events.subscribe] (lines 56-58): each event goes to its
    handler. *)
Definition on_event (w : env) (cfg : config) (g : globals)
    (ev : device_event) : globals * trace :=
  match ev with
  | Gps e => on_gps_position w cfg g e
  | Battery e => on_battery g e
  | Positions repr => on_positions g repr
  end.

(** The handlers run one event after the other; each call of
    [send_osmand_position] meets its own world [w]. *)
Fixpoint run (w : env) (cfg : config) (g : globals)
    (evs : list device_event) : globals * list trace :=
  match evs with
  | [] => (g, [])
  | ev :: evs' =>
      let '(g', t) := on_event w cfg g ev in
      let '(g'', ts) := run w cfg g' evs' in
      (g'', t :: ts)
  end.

End Main.

(** ** Notions used in the statements *)

(** A [timestamp] argument the body can encode: absent, or a [datetime]
    (whose conversion to an integer is defined, as it is for every
    [datetime] object of Python). *)
Definition timestamp_encodable (v : value) : bool :=
  match v with
  | VNone => true
  | VDatetime d => match timestamp_millis d with Some _ => true | None => false end
  | _ => false
  end.

(** An optional field: present unless it is [None]. *)
Definition given (v : value) : option value :=
  if is_none v then None else Some v.

(** The protocol fields as the specification lists them: the key of each
    field and, when the field is supplied, its encoded value. *)
Definition protocol_fields (a : args) : list (string * option value) :=
  [ ("id", Some (device_id a));
    ("lat", Some (lat a));
    ("lon", Some (lon a));
    ("timestamp",
      match timestamp a with
      | VDatetime d => option_map VInt (timestamp_millis d)
      | _ => None
      end);
    ("speed", given (speed a));
    ("bearing", given (bearing a));
    ("altitude", given (altitude a));
    ("accuracy", given (accuracy a));
    ("hdop", given (hdop a));
    ("batt", given (battery a));
    ("charge",
      option_map (fun c => VStr (if truthy c then "true" else "false"))
                 (given (charge a)));
    ("valid",
      option_map (fun c => VStr (if truthy c then "true" else "false"))
                 (given (valid a)));
    ("driverUniqueId", given (driver_unique_id a)) ].

Definition protocol_param (a : args) (k : string) : option value :=
  match find (fun e => String.eqb k (fst e)) (protocol_fields a) with
  | Some (_, Some v) => Some v
  | _ => None
  end.

(** The dictionary before [params.update(custom_attributes)]. *)
Definition without_custom (a : args) : args :=
  {| traccar_url := traccar_url a; device_id := device_id a;
     lat := lat a; lon := lon a; timestamp := timestamp a;
     speed := speed a; bearing := bearing a; altitude := altitude a;
     accuracy := accuracy a; hdop := hdop a; battery := battery a;
     charge := charge a; valid := valid a;
     driver_unique_id := driver_unique_id a; session := session a;
     timeout := timeout a; custom_attributes := [] |}.

(** What follows the arrival of the answer: the outcome of the call and
    the actions after the request. *)
Definition after_get (o : get_outcome) : result value * trace :=
  match o with
  | GetRaises e => (Raise e, [])
  | GetResponse status body =>
      if status =? 200
      then (Return (VBool true), [EvPrint (success_message status)])
      else match body with
           | BodyText text =>
               (Raise (mk_exn ClientError (failure_message status text)), [])
           | BodyRaises e => (Raise e, [])
           end
  end.

(** The session object through which the request goes: the one supplied,
    or the one the call creates. *)
Definition session_handle (w : env) (s : value) : option nat :=
  match s with
  | VNone => Some (new_session w)
  | VSession h => Some h
  | _ => None
  end.

(** [v] is a number within [lo, hi]. *)
Definition number_in (lo hi : Z) (v : value) : bool :=
  isinstance_int_float v && between lo hi v.


(** The request of the call [c] carries the value [v] under the key [k]. *)
Definition sent_with (w : env) (c : call) (k : string) (v : value) : Prop :=
  exists h u p tmo,
    In (EvGet h u p tmo) (snd (call_send w c)) /\ Dict.get k p = Some v.

Definition is_session_event (ev : event) : bool :=
  match ev with
  | EvSessionOpen _ | EvSessionClose _ => true
  | _ => false
  end.

(** The call gets as far as the request: validation, parameters and URL
    raise nothing. *)
Definition reaches_request (a : args) : bool :=
  match validate a, build_params a, strip_url (traccar_url a) with
  | Return _, Return _, Return _ => true
  | _, _, _ => false
  end.

Definition is_get (ev : event) : bool :=
  match ev with EvGet _ _ _ _ => true | _ => false end.


(** The dictionary of the call holds the integer [n] under [lat]. *)
Definition lat_sent_as_int (a : args) (n : Z) : Prop :=
  exists params,
    build_params a = Return params
    /\ Dict.get "lat" params = Some (VInt n).

(** The value of the last [BatteryEvent] of a sequence of events. *)
Fixpoint last_battery (evs : list Main.device_event) : option Z :=
  match evs with
  | [] => None
  | ev :: evs' =>
      match last_battery evs', ev with
      | Some v, _ => Some v
      | None, Main.Battery e => Some (Main.battery_value e)
      | None, _ => None
      end
  end.

Definition battery_seen (seen : option Z) : value :=
  match seen with
  | Some v => VInt v
  | None => VNone
  end.

(** No [BatteryEvent] among the events. *)
Definition no_battery (evs : list Main.device_event) : bool :=
  forallb (fun ev => match ev with Main.Battery _ => false | _ => true end)
          evs.

(** The configuration and the position are such that a report goes out:
    a URL that is a string, a device id, coordinates within range. *)
Definition reportable (cfg : Main.config) (e : Main.GpsPositionEvent)
  : bool :=
  match Main.cfg_traccar_url cfg with VStr _ => true | _ => false end
  && truthy (Main.cfg_did cfg)
  && number_in (-90) 90 (Main.latitude e)
  && number_in (-180) 180 (Main.longitude e).

(** The report is one request, sent through a session of its own, whose
    parameters are the device id, the position and then [battery_entry];
    [out] is the line printed when the server answers 200. *)
Definition report_with (w : env) (cfg : Main.config)
    (e : Main.GpsPositionEvent) (battery_entry : dict) (report : trace)
  : Prop :=
  exists s out,
    Main.cfg_traccar_url cfg = VStr s
    /\ (out = [] \/ out = [EvPrint (success_message 200)])
    /\ report
       = (EvSessionOpen (new_session w)
            :: EvGet (new_session w) (rstrip_slash s)
                 ([("id", Main.cfg_did cfg); ("lat", Main.latitude e);
                   ("lon", Main.longitude e)] ++ battery_entry)
                 (VInt 30)
            :: out ++ [EvSessionClose (new_session w)])%list.

(** Every request of the trace has [expected] as its [batt] entry. *)
Definition batt_is (expected : option value) (report : trace) : Prop :=
  Forall (fun ev =>
            match ev with
            | EvGet _ _ p _ => Dict.get "batt" p = expected
            | _ => True
            end) report.

(** ** Sample calls, worlds and events *)

Definition lit (num den : Z) : value := VFloat (PyFloat.of_ratio num den).

(** A server that accepts every request. *)
Definition accepting : env :=
  {| new_session := 1;
     http_get := fun _ _ _ _ => GetResponse 200 (BodyText "") |}.



(** The end-to-end example of the specification. *)
Definition veh1_call : call :=
  {| pos_args := [VStr "http://localhost:5055/"; VStr "veh-1";
                  lit 377749 10000; lit (-1224194) 10000];
     kw_args := [("battery", VInt 85); ("charge", VBool true)] |}.

Definition veh1_args : args :=
  {| traccar_url := VStr "http://localhost:5055/";
     device_id := VStr "veh-1";
     lat := lit 377749 10000; lon := lit (-1224194) 10000;
     timestamp := VNone; speed := VNone; bearing := VNone;
     altitude := VNone; accuracy := VNone; hdop := VNone;
     battery := VInt 85; charge := VBool true; valid := VNone;
     driver_unique_id := VNone; session := VNone; timeout := VInt 30;
     custom_attributes := [] |}.

Definition veh1_params : dict :=
  [("id", VStr "veh-1"); ("lat", lit 377749 10000);
   ("lon", lit (-1224194) 10000); ("batt", VInt 85);
   ("charge", VStr "true")].

(** A longitude of 200 degrees, with a session supplied by the caller. *)
Definition far_east_call : call :=
  {| pos_args := [VStr "http://localhost:5055"; VStr "veh-1";
                  VInt 10; VInt 200];
     kw_args := [("session", VSession 3)] |}.

Definition far_east_args : args :=
  {| traccar_url := VStr "http://localhost:5055";
     device_id := VStr "veh-1"; lat := VInt 10; lon := VInt 200;
     timestamp := VNone; speed := VNone; bearing := VNone;
     altitude := VNone; accuracy := VNone; hdop := VNone;
     battery := VNone; charge := VNone; valid := VNone;
     driver_unique_id := VNone; session := VSession 3;
     timeout := VInt 30; custom_attributes := [] |}.


(** A position of latitude 10 with the extra attribute [lat=45]. *)
Definition lat_twice_call : call :=
  {| pos_args := [VStr "http://localhost:5055"; VStr "veh-1";
                  VInt 10; VInt 20];
     kw_args := [("lat", VInt 45)] |}.

(** A call whose custom attributes collide with [id] and [batt]. *)
Definition colliding_call : call :=
  {| pos_args := [VStr "http://localhost:5055"; VStr "veh-1";
                  VInt 10; VInt 20];
     kw_args := [("battery", VInt 85); ("id", VStr "veh-2");
                 ("batt", VInt 3); ("room", VStr "living_room")] |}.

Definition colliding_args : args :=
  {| traccar_url := VStr "http://localhost:5055";
     device_id := VStr "veh-1"; lat := VInt 10; lon := VInt 20;
     timestamp := VNone; speed := VNone; bearing := VNone;
     altitude := VNone; accuracy := VNone; hdop := VNone;
     battery := VInt 85; charge := VNone; valid := VNone;
     driver_unique_id := VNone; session := VNone; timeout := VInt 30;
     custom_attributes := [("id", VStr "veh-2"); ("batt", VInt 3);
                           ("room", VStr "living_room")] |}.

(** One second and one millisecond after the epoch. *)
Definition epoch_plus_1001ms : datetime := utc 1970 1 1 0 0 1 1000.

Definition new_year_2024 : datetime := utc 2024 1 1 0 0 0 0.

Definition stamped_args (d : datetime) : args :=
  {| traccar_url := VStr "http://localhost:5055";
     device_id := VStr "veh-1"; lat := VInt 10; lon := VInt 20;
     timestamp := VDatetime d; speed := VNone; bearing := VNone;
     altitude := VNone; accuracy := VNone; hdop := VNone;
     battery := VNone; charge := VNone; valid := VNone;
     driver_unique_id := VNone; session := VNone; timeout := VInt 30;
     custom_attributes := [] |}.

(** [lat=True, lon=False]. *)
Definition boolean_call : call :=
  {| pos_args := [VStr "http://localhost:5055"; VStr "veh-1";
                  VBool true; VBool false];
     kw_args := [] |}.

Definition boolean_args : args :=
  {| traccar_url := VStr "http://localhost:5055";
     device_id := VStr "veh-1"; lat := VBool true; lon := VBool false;
     timestamp := VNone; speed := VNone; bearing := VNone;
     altitude := VNone; accuracy := VNone; hdop := VNone;
     battery := VNone; charge := VNone; valid := VNone;
     driver_unique_id := VNone; session := VNone; timeout := VInt 30;
     custom_attributes := [] |}.

(** Some events of the vacuum: two positions around a battery level. *)
Definition morning : list Main.device_event :=
  [Main.Gps (Main.mk_gps (lit 377749 10000) (lit (-1224194) 10000));
   Main.Positions "PositionsEvent";
   Main.Battery (Main.mk_battery 85);
   Main.Gps (Main.mk_gps (lit 377750 10000) (lit (-1224194) 10000))].

Definition home : Main.config :=
  {| Main.cfg_traccar_url := VStr "http://localhost:5055";
     Main.cfg_did := VStr "veh-1" |}.

(** ** Notions used in the further properties *)

(** The string ends with a slash. *)
Fixpoint ends_with_slash (s : string) : bool :=
  match s with
  | EmptyString => false
  | String c EmptyString => Ascii.eqb c "/"
  | String _ s' => ends_with_slash s'
  end.

(** [n] slashes. *)
Fixpoint slashes (n : nat) : string :=
  match n with
  | O => EmptyString
  | S n' => String "/" (slashes n')
  end.

Definition is_open (ev : event) : bool :=
  match ev with EvSessionOpen _ => true | _ => false end.

Definition is_close (ev : event) : bool :=
  match ev with EvSessionClose _ => true | _ => false end.

Definition is_gps (ev : Main.device_event) : bool :=
  match ev with Main.Gps _ => true | _ => false end.

Definition count {A} (f : A -> bool) (l : list A) : nat :=
  List.length (filter f l).

(** An optional entry of the dictionary: nothing for [None]. *)
Definition entry (key : string) (v : value) (f : value -> value) : dict :=
  if is_none v then [] else [(key, f v)].

(** The [i]-th required parameter is given once, by position or by
    keyword. *)
Definition given_once (c : call) (i : nat) (name : string) : bool :=
  match nth_error (pos_args c) i, Dict.get name (kw_args c) with
  | Some _, None | None, Some _ => true
  | _, _ => false
  end.

(** No colon in the string. *)
Fixpoint no_colon (s : string) : bool :=
  match s with
  | EmptyString => true
  | String c s' => negb (Ascii.eqb c ":") && no_colon s'
  end.

(** A position at the north pole, on the antimeridian. *)
Definition north_pole_args : args :=
  {| traccar_url := VStr "http://localhost:5055";
     device_id := VStr "veh-1"; lat := VInt 90; lon := VInt (-180);
     timestamp := VNone; speed := VNone; bearing := VNone;
     altitude := VNone; accuracy := VNone; hdop := VNone;
     battery := VNone; charge := VNone; valid := VNone;
     driver_unique_id := VNone; session := VNone; timeout := VInt 30;
     custom_attributes := [] |}.

(** A float that is a NaN or an infinity. *)
Definition not_finite (v : value) : bool :=
  match v with
  | VFloat S754_nan | VFloat (S754_infinity _) => true
  | _ => false
  end.

(** A latitude that is not a number. *)
Definition nan_call : call :=
  {| pos_args := [VStr "http://localhost:5055"; VStr "veh-1";
                  VFloat S754_nan; VInt 20];
     kw_args := [] |}.

Definition nan_args : args :=
  {| traccar_url := VStr "http://localhost:5055";
     device_id := VStr "veh-1"; lat := VFloat S754_nan; lon := VInt 20;
     timestamp := VNone; speed := VNone; bearing := VNone;
     altitude := VNone; accuracy := VNone; hdop := VNone;
     battery := VNone; charge := VNone; valid := VNone;
     driver_unique_id := VNone; session := VNone; timeout := VInt 30;
     custom_attributes := [] |}.

(** A value of one of the built-in types [bool], [int], [float] and
    [str], none of which has a [timestamp] method. *)
Definition builtin_scalar (v : value) : bool :=
  match v with
  | VBool _ | VInt _ | VFloat _ | VStr _ => true
  | _ => false
  end.

(** A timestamp given as a number of seconds instead of a [datetime]. *)
Definition epoch_seconds_call : call :=
  {| pos_args := [VStr "http://localhost:5055"; VStr "veh-1";
                  VInt 10; VInt 20];
     kw_args := [("timestamp", VInt 1704067200)] |}.

Definition epoch_seconds_args : args :=
  {| traccar_url := VStr "http://localhost:5055";
     device_id := VStr "veh-1"; lat := VInt 10; lon := VInt 20;
     timestamp := VInt 1704067200; speed := VNone; bearing := VNone;
     altitude := VNone; accuracy := VNone; hdop := VNone;
     battery := VNone; charge := VNone; valid := VNone;
     driver_unique_id := VNone; session := VNone; timeout := VInt 30;
     custom_attributes := [] |}.

(** The flag [charge] given as the string "false". *)
Definition string_flag_call : call :=
  {| pos_args := [VStr "http://localhost:5055"; VStr "veh-1";
                  VInt 10; VInt 20];
     kw_args := [("charge", VStr "false"); ("valid", VInt 0)] |}.

Definition string_flag_args : args :=
  {| traccar_url := VStr "http://localhost:5055";
     device_id := VStr "veh-1"; lat := VInt 10; lon := VInt 20;
     timestamp := VNone; speed := VNone; bearing := VNone;
     altitude := VNone; accuracy := VNone; hdop := VNone;
     battery := VNone; charge := VStr "false"; valid := VInt 0;
     driver_unique_id := VNone; session := VNone; timeout := VInt 30;
     custom_attributes := [] |}.

(** A server that answers 500 and drops the connection before the body
    is read. *)
Definition dropping : env :=
  {| new_session := 1;
     http_get := fun _ _ _ _ =>
       GetResponse 500
         (BodyRaises (mk_exn ClientOSError "Connection reset by peer")) |}.

(** The entry of the timestamp, when it is a [datetime]. *)
Definition timestamp_entry (v : value) : dict :=
  match v with
  | VDatetime d =>
      match timestamp_millis d with
      | Some ms => [("timestamp", VInt ms)]
      | None => []
      end
  | _ => []
  end.

(** The protocol fields in the order of the assignments of the body. *)
Definition ordered_fields (a : args) : dict :=
  ([("id", device_id a); ("lat", lat a); ("lon", lon a)]
     ++ timestamp_entry (timestamp a)
     ++ entry "speed" (speed a) id
     ++ entry "bearing" (bearing a) id
     ++ entry "altitude" (altitude a) id
     ++ entry "accuracy" (accuracy a) id
     ++ entry "hdop" (hdop a) id
     ++ entry "batt" (battery a) id
     ++ entry "charge" (charge a) str_bool
     ++ entry "valid" (valid a) str_bool
     ++ entry "driverUniqueId" (driver_unique_id a) id)%list.

(** A call with two new custom attributes around a colliding one. *)
Definition rooms_call : call :=
  {| pos_args := [VStr "http://localhost:5055"; VStr "veh-1";
                  VInt 10; VInt 20];
     kw_args := [("room", VStr "kitchen"); ("battery", VInt 85);
                 ("batt", VInt 3); ("speed", VInt 0);
                 ("cleaning_mode", VStr "auto")] |}.

Definition rooms_args : args :=
  {| traccar_url := VStr "http://localhost:5055";
     device_id := VStr "veh-1"; lat := VInt 10; lon := VInt 20;
     timestamp := VNone; speed := VInt 0; bearing := VNone;
     altitude := VNone; accuracy := VNone; hdop := VNone;
     battery := VInt 85; charge := VNone; valid := VNone;
     driver_unique_id := VNone; session := VNone; timeout := VInt 30;
     custom_attributes := [("room", VStr "kitchen"); ("batt", VInt 3);
                           ("cleaning_mode", VStr "auto")] |}.

(** The configuration when the variable [TRACCAR_URL] is not set:
    [os.getenv] gives [None]. *)
Definition no_url : Main.config :=
  {| Main.cfg_traccar_url := VNone; Main.cfg_did := VStr "veh-1" |}.

(** What a handler of [main] may do: nothing, print a line, or report once
    through a session of its own that it closes. *)
Definition handler_trace (w : env) (tr : trace) : Prop :=
  tr = []
  \/ (exists line, tr = [EvPrint line])
  \/ exists u p out,
       (out = [] \/ out = [EvPrint (success_message 200)])
       /\ tr = (EvSessionOpen (new_session w)
                  :: EvGet (new_session w) u p (VInt 30)
                  :: out ++ [EvSessionClose (new_session w)])%list.

(** A call without a longitude. *)
Definition unbound_call : call :=
  {| pos_args := [VStr "http://localhost:5055"; VStr "veh-1"; VInt 10];
     kw_args := [("battery", VInt 85)] |}.

(** * Properties *)

(** ** Dictionaries *)

Module DictFacts.
  Import Dict.

Lemma get_set (k k' : string) (v : value) (d : dict) :
  get k (set k' v d) = if String.eqb k k' then Some v else get k d.
Proof.
  induction d as [|[k0 v0] d IH]; simpl.
  - destruct (String.eqb k k'); reflexivity.
  - destruct (String.eqb_spec k' k0) as [->|Hne]; simpl.
    + destruct (String.eqb k k0); reflexivity.
    + rewrite IH.
      destruct (String.eqb_spec k k0) as [->|Hk]; [|reflexivity].
      destruct (String.eqb_spec k0 k') as [E|_]; [|reflexivity].
      now subst.
Qed.

Lemma get_set_same (k : string) (v : value) (d : dict) :
  get k (set k v d) = Some v.
Proof. now rewrite get_set, String.eqb_refl. Qed.

Lemma update_cons (d : dict) (k : string) (v : value) (o : dict) :
  update d ((k, v) :: o) = update (set k v d) o.
Proof. reflexivity. Qed.

(** After [d.update(o)] a key of [o] holds the value of [o]; any other
    key is as in [d]. *)
Lemma get_update (k : string) (o : dict) :
  unique_keys o = true ->
  forall d, get k (update d o)
            = match get k o with Some v => Some v | None => get k d end.
Proof.
  induction o as [|[k0 v0] o IH]; intros U d; [reflexivity|].
  simpl in U. apply andb_true_iff in U as [Hk0 Uo].
  rewrite update_cons, (IH Uo), get_set. simpl.
  destruct (String.eqb_spec k k0) as [->|_]; [|reflexivity].
  unfold mem in Hk0. destruct (get k0 o); [discriminate|reflexivity].
Qed.

Lemma get_filter (p : string -> bool) (k : string) (d : dict) :
  get k (filter (fun kv => p (fst kv)) d)
  = if p k then get k d else None.
Proof.
  induction d as [|[k0 v0] d IH]; simpl.
  - now destruct (p k).
  - destruct (p k0) eqn:P0; simpl; rewrite IH.
    + destruct (String.eqb_spec k k0) as [->|_]; [now rewrite P0|].
      reflexivity.
    + destruct (String.eqb_spec k k0) as [->|_]; [now rewrite P0|].
      reflexivity.
Qed.

Lemma unique_filter (p : string -> bool) (d : dict) :
  unique_keys d = true ->
  unique_keys (filter (fun kv => p (fst kv)) d) = true.
Proof.
  induction d as [|[k0 v0] d IH]; simpl; [reflexivity|].
  intros U. apply andb_true_iff in U as [Hk0 Ud].
  destruct (p k0) eqn:P0; simpl; [|now apply IH].
  rewrite (IH Ud), andb_true_r.
  unfold mem in *. rewrite get_filter, P0.
  destruct (get k0 d); [discriminate|reflexivity].
Qed.

Lemma mem_set (k k' : string) (v : value) (d : dict) :
  mem k (set k' v d) = String.eqb k k' || mem k d.
Proof.
  unfold mem. rewrite get_set.
  destruct (String.eqb k k'); reflexivity.
Qed.

Lemma unique_set (k : string) (v : value) (d : dict) :
  unique_keys d = true -> unique_keys (set k v d) = true.
Proof.
  induction d as [|[k0 v0] d IH]; simpl; [reflexivity|].
  intros U. apply andb_true_iff in U as [Hk0 Ud].
  destruct (String.eqb_spec k k0) as [->|Hne]; simpl.
  - now rewrite Hk0, Ud.
  - rewrite mem_set, (IH Ud), andb_true_r.
    apply negb_true_iff in Hk0. rewrite Hk0, orb_false_r.
    apply negb_true_iff.
    destruct (String.eqb_spec k0 k) as [E|_]; [now subst|reflexivity].
Qed.

Lemma unique_update (o d : dict) :
  unique_keys d = true -> unique_keys (update d o) = true.
Proof.
  revert d. induction o as [|[k0 v0] o IH]; intros d U; [exact U|].
  rewrite update_cons. apply IH. now apply unique_set.
Qed.

End DictFacts.

(** ** The monad *)

(** The handler [except Exception as e: raise] changes nothing. *)
Lemma try_except_reraise {A} (m : M A) (t : trace) :
  try_except m (fun e => raise e) t = m t.
Proof.
  unfold try_except, raise.
  destruct (m t) as [[a|e] t']; [reflexivity|].
  destruct (catches Exception e); reflexivity.
Qed.

(** ** Binding *)

Lemma bind_arguments_inv (c : call) (a : args) :
  bind_arguments c = Return a ->
  Dict.unique_keys (kw_args c) = true
  /\ custom_attributes a
     = filter (fun kv => negb (is_parameter_name (fst kv))) (kw_args c)
  /\ battery a = bind_keyword c "battery" VNone
  /\ session a = bind_keyword c "session" VNone
  /\ timestamp a = bind_keyword c "timestamp" VNone
  /\ bind_positional c 2 "lat" = Return (lat a)
  /\ bind_positional c 3 "lon" = Return (lon a).
Proof.
  unfold bind_arguments.
  destruct (4 <? List.length (pos_args c))%nat; [discriminate|].
  destruct (Dict.unique_keys (kw_args c)); [simpl|discriminate].
  destruct (bind_positional c 0 "traccar_url"); [simpl|discriminate].
  destruct (bind_positional c 1 "device_id"); [simpl|discriminate].
  destruct (bind_positional c 2 "lat"); [simpl|discriminate].
  destruct (bind_positional c 3 "lon"); [simpl|discriminate].
  intros [= <-]. simpl. repeat split; reflexivity.
Qed.

(** The custom attributes of a bound call: the keywords that name no
    parameter, each once. *)
Lemma custom_attributes_get (c : call) (a : args) (k : string) :
  bind_arguments c = Return a ->
  Dict.get k (custom_attributes a)
  = if is_parameter_name k then None else Dict.get k (kw_args c).
Proof.
  intros B. destruct (bind_arguments_inv c a B) as (_ & -> & _).
  rewrite (DictFacts.get_filter (fun k => negb (is_parameter_name k))).
  destruct (is_parameter_name k); reflexivity.
Qed.

Lemma custom_attributes_unique (c : call) (a : args) :
  bind_arguments c = Return a ->
  Dict.unique_keys (custom_attributes a) = true.
Proof.
  intros B. destruct (bind_arguments_inv c a B) as (U & -> & _).
  now apply (DictFacts.unique_filter (fun k => negb (is_parameter_name k))).
Qed.

(** ** The parameter dictionary *)

Lemma get_set_if_given (k key : string) (v : value) (f : value -> value)
    (d : dict) :
  Dict.get k (set_if_given key v f d)
  = if String.eqb k key && negb (is_none v) then Some (f v)
    else Dict.get k d.
Proof.
  unfold set_if_given. destruct (is_none v); simpl.
  - now rewrite andb_false_r.
  - now rewrite DictFacts.get_set, andb_true_r.
Qed.

Lemma unique_set_if_given (key : string) (v : value) (f : value -> value)
    (d : dict) :
  Dict.unique_keys d = true ->
  Dict.unique_keys (set_if_given key v f d) = true.
Proof.
  unfold set_if_given. destruct (is_none v); [trivial|].
  apply DictFacts.unique_set.
Qed.

Lemma build_params_custom_last (a : args) :
  build_params a
  = rbind (build_params (without_custom a))
          (fun base => Return (Dict.update base (custom_attributes a))).
Proof.
  unfold build_params. simpl.
  destruct (is_none (timestamp a)); simpl; [reflexivity|].
  destruct (encode_timestamp (timestamp a)); reflexivity.
Qed.

Ltac key_case k lit :=
  destruct (String.eqb_spec k lit) as [->|?]; [simpl|].

(** The lookup of a key in the dictionary built by the chain of
    assignments, against the table of protocol fields: one case per key. *)
Ltac protocol_keys a k :=
  unfold protocol_param, protocol_fields;
  repeat rewrite get_set_if_given; unfold given, id, str_bool;
  repeat match goal with
         | H : timestamp a = _ |- _ => rewrite H
         | H : timestamp_millis _ = _ |- _ => rewrite H
         end;
  key_case k "id"; [reflexivity|];
  key_case k "lat"; [reflexivity|];
  key_case k "lon"; [reflexivity|];
  key_case k "timestamp"; [reflexivity|];
  key_case k "speed"; [now destruct (is_none (speed a))|];
  key_case k "bearing"; [now destruct (is_none (bearing a))|];
  key_case k "altitude"; [now destruct (is_none (altitude a))|];
  key_case k "accuracy"; [now destruct (is_none (accuracy a))|];
  key_case k "hdop"; [now destruct (is_none (hdop a))|];
  key_case k "batt"; [now destruct (is_none (battery a))|];
  key_case k "charge"; [now destruct (is_none (charge a))|];
  key_case k "valid"; [now destruct (is_none (valid a))|];
  key_case k "driverUniqueId";
    [now destruct (is_none (driver_unique_id a))|];
  simpl;
  repeat match goal with
         | H : k <> ?lit |- context [String.eqb k ?lit] =>
             rewrite (proj2 (String.eqb_neq k lit) H)
         end;
  reflexivity.

(** Without custom attributes the dictionary holds the protocol fields,
    and nothing else. *)
Lemma build_params_protocol (a : args) :
  timestamp_encodable (timestamp a) = true ->
  exists base,
    build_params (without_custom a) = Return base
    /\ Dict.unique_keys base = true
    /\ forall k, Dict.get k base = protocol_param a k.
Proof.
  intros T. unfold build_params. cbn [without_custom timestamp device_id
    lat lon speed bearing altitude accuracy hdop battery charge valid
    driver_unique_id custom_attributes Dict.update fold_left].
  destruct (timestamp a) as [| | | | |d|] eqn:Ets; try discriminate T.
  - cbn [is_none rbind]. eexists. split; [reflexivity|]. split.
    + repeat apply unique_set_if_given. reflexivity.
    + intros k. protocol_keys a k.
  - cbn [is_none encode_timestamp]. simpl in T.
    destruct (timestamp_millis d) as [ms|] eqn:Ems; [|discriminate].
    cbn [rbind]. eexists. split; [reflexivity|]. split.
    + repeat apply unique_set_if_given. reflexivity.
    + intros k. protocol_keys a k.
Qed.

(** With custom attributes: each custom key holds the custom value, every
    other key the protocol field. *)
Lemma build_params_get (a : args) :
  timestamp_encodable (timestamp a) = true ->
  Dict.unique_keys (custom_attributes a) = true ->
  exists params,
    build_params a = Return params
    /\ Dict.unique_keys params = true
    /\ forall k, Dict.get k params
                 = match Dict.get k (custom_attributes a) with
                   | Some v => Some v
                   | None => protocol_param a k
                   end.
Proof.
  intros T U. destruct (build_params_protocol a T) as (base & B & UB & G).
  rewrite build_params_custom_last, B. simpl.
  eexists. split; [reflexivity|]. split.
  - now apply DictFacts.unique_update.
  - intros k. rewrite (DictFacts.get_update k _ U), G. reflexivity.
Qed.

(** ** The request *)

Lemma if_same {A} (b : bool) (x : A) : (if b then x else x) = x.
Proof. now destruct b. Qed.

(** A call stopped by the validation does nothing. *)
Lemma send_invalid (w : env) (a : args) (e : exn) (t : trace) :
  validate a = Raise e ->
  send_osmand_position w a t = (Raise e, t).
Proof.
  intros V. unfold send_osmand_position, bind, lift. now rewrite V.
Qed.

Lemma send_unencodable (w : env) (a : args) (e : exn) (t : trace) :
  validate a = Return tt ->
  build_params a = Raise e ->
  send_osmand_position w a t = (Raise e, t).
Proof.
  intros V P. unfold send_osmand_position, bind, lift. now rewrite V, P.
Qed.

Lemma send_bad_url (w : env) (a : args) (p : dict) (e : exn) (t : trace) :
  validate a = Return tt ->
  build_params a = Return p ->
  strip_url (traccar_url a) = Raise e ->
  send_osmand_position w a t = (Raise e, t).
Proof.
  intros V P S. unfold send_osmand_position, bind, lift.
  now rewrite V, P, S.
Qed.

(** A call that passes the validation, with its parameters and its URL:
    what it returns and what it does, by the [session] argument. *)
Lemma send_run (w : env) (a : args) (p : dict) (u : string) (t : trace) :
  validate a = Return tt ->
  build_params a = Return p ->
  strip_url (traccar_url a) = Return u ->
  send_osmand_position w a t
  = match session a with
    | VNone =>
        let h := new_session w in
        let o := after_get (http_get w h u p (timeout a)) in
        (fst o,
         (t ++ EvSessionOpen h :: EvGet h u p (timeout a) :: snd o
            ++ [EvSessionClose h])%list)
    | VSession h =>
        let o := after_get (http_get w h u p (timeout a)) in
        (fst o, (t ++ EvGet h u p (timeout a) :: snd o)%list)
    | _ => (Raise (mk_exn AttributeError "object has no attribute 'get'"), t)
    end.
Proof.
  intros V P S.
  cbv [send_osmand_position bind lift ret raise emit try_finally
       try_except client_session session_get session_close print
       response_text after_get].
  rewrite V, P, S.
  destruct (session a) as [| | | | | |h]; cbv [is_none]; cbv beta iota;
    rewrite ?if_same; try reflexivity.
  - destruct (http_get w (new_session w) u p (timeout a))
      as [e|status [text|e]]; cbv beta iota;
      try destruct (Z.eqb_spec status 200) as [->|Hs];
      cbv beta iota; cbn [negb fst snd]; rewrite ?if_same;
      now rewrite <- !app_assoc.
  - destruct (http_get w h u p (timeout a)) as [e|status [text|e]];
      cbv beta iota;
      try destruct (Z.eqb_spec status 200) as [->|Hs];
      cbv beta iota; cbn [negb fst snd]; rewrite ?if_same;
      now rewrite <- ?app_assoc.
Qed.

Lemma after_get_cases (o : get_outcome) :
  (exists e, after_get o = (Raise e, []))
  \/ after_get o = (Return (VBool true), [EvPrint (success_message 200)])
     /\ exists body, o = GetResponse 200 body.
Proof.
  destruct o as [e|status body]; simpl; [left; eauto|].
  destruct (Z.eqb_spec status 200) as [->|_].
  - right. split; [reflexivity|]. now exists body.
  - left. destruct body; eauto.
Qed.

Lemma after_get_trace (o : get_outcome) :
  snd (after_get o) = []
  \/ snd (after_get o) = [EvPrint (success_message 200)]
     /\ fst (after_get o) = Return (VBool true)
     /\ exists body, o = GetResponse 200 body.
Proof.
  destruct o as [e|status body]; simpl; [now left|].
  destruct (Z.eqb_spec status 200) as [->|_].
  - right. repeat split. now exists body.
  - left. now destruct body.
Qed.

(** Every request of a call carries the dictionary of the call, the
    stripped URL and the timeout. *)
Lemma send_get_params (w : env) (a : args) (h : nat) (u : string)
    (p : dict) (tmo : value) :
  In (EvGet h u p tmo) (snd (send_osmand_position w a [])) ->
  build_params a = Return p
  /\ strip_url (traccar_url a) = Return u
  /\ tmo = timeout a
  /\ session_handle w (session a) = Some h.
Proof.
  destruct (validate a) as [[]|e] eqn:V;
    [|rewrite (send_invalid w a e [] V); intros []].
  destruct (build_params a) as [p'|e] eqn:P;
    [|rewrite (send_unencodable w a e [] V P); intros []].
  destruct (strip_url (traccar_url a)) as [u'|e] eqn:S;
    [|rewrite (send_bad_url w a p' e [] V P S); intros []].
  rewrite (send_run w a p' u' [] V P S).
  destruct (session a) as [| | | | | |h0]; try (now intros []); cbn [snd app].
  - intros [H|[H|H]]; [discriminate H| |].
    + injection H as <- <- <- <-. repeat split.
    + apply in_app_or in H as [H1|[H1|[]]]; [|discriminate H1].
      destruct (after_get_trace
                  (http_get w (new_session w) u' p' (timeout a)))
        as [E|(E & _)]; rewrite E in H1; [destruct H1|].
      destruct H1 as [H1|[]]; discriminate H1.
  - intros [H|H].
    + injection H as <- <- <- <-. repeat split.
    + destruct (after_get_trace (http_get w h0 u' p' (timeout a)))
        as [E|(E & _)]; rewrite E in H; [destruct H|].
      destruct H as [H|[]]; discriminate H.
Qed.

Lemma call_send_bound (w : env) (c : call) (a : args) :
  bind_arguments c = Return a ->
  call_send w c = send_osmand_position w a [].
Proof. intros B. unfold call_send. now rewrite B. Qed.

(** The outcome and the trace of a call that reaches the request. *)
Lemma send_outcome (w : env) (a : args) (p : dict) (u : string) (h : nat) :
  validate a = Return tt ->
  build_params a = Return p ->
  strip_url (traccar_url a) = Return u ->
  session_handle w (session a) = Some h ->
  fst (send_osmand_position w a [])
  = fst (after_get (http_get w h u p (timeout a))).
Proof.
  intros V P S H. rewrite (send_run w a p u [] V P S).
  destruct (session a); try discriminate H; injection H as <-; reflexivity.
Qed.

Lemma send_trace (w : env) (a : args) (p : dict) (u : string) (h : nat) :
  validate a = Return tt ->
  build_params a = Return p ->
  strip_url (traccar_url a) = Return u ->
  session_handle w (session a) = Some h ->
  snd (send_osmand_position w a [])
  = ((if is_none (session a) then [EvSessionOpen h] else [])
       ++ EvGet h u p (timeout a)
       :: snd (after_get (http_get w h u p (timeout a)))
       ++ (if is_none (session a) then [EvSessionClose h] else []))%list.
Proof.
  intros V P S H. rewrite (send_run w a p u [] V P S).
  destruct (session a); try discriminate H; injection H as <-;
    cbn [snd is_none app]; [reflexivity|].
  now rewrite app_nil_r.
Qed.

Example veh1_bound : bind_arguments veh1_call = Return veh1_args.
Proof. reflexivity. Qed.

Example veh1_end_to_end :
  call_send accepting veh1_call
  = (Return (VBool true),
     [EvSessionOpen 1;
      EvGet 1 "http://localhost:5055" veh1_params (VInt 30);
      EvPrint "Traccar request succeeded with status 200";
      EvSessionClose 1]).
Proof. vm_compute. reflexivity. Qed.

(** ** C1: the encoded parameters *)

(** C1.  For every call that binds to the signature and passes the
    validation, the parameter dictionary is built, holds each key once, and
    is exactly this: [id], [lat] and [lon] are present with the values
    given; a supplied optional field is present under its protocol key
    ([battery] under [batt], [charge] and [valid] as the strings "true" or
    "false", [driver_unique_id] under [driverUniqueId], [timestamp] as an
    integer, [speed], [bearing], [altitude], [accuracy] and [hdop] unchanged
    under their own names); an optional field that is not supplied has no
    entry, and no other key is present, apart from the custom attributes of
    the call, which are merged last.  The request carries this
    dictionary. *)
Theorem encoded_parameters_exact (w : env) (c : call) (a : args) :
  bind_arguments c = Return a ->
  validate a = Return tt ->
  timestamp_encodable (timestamp a) = true ->
  exists params,
    build_params a = Return params
    /\ Dict.unique_keys params = true
    /\ (forall k, Dict.get k params
                  = match Dict.get k (custom_attributes a) with
                    | Some v => Some v
                    | None => protocol_param a k
                    end)
    /\ (forall h u p tmo,
          In (EvGet h u p tmo) (snd (call_send w c)) -> p = params).
Proof.
  intros B V T.
  destruct (build_params_get a T (custom_attributes_unique c a B))
    as (params & P & U & G).
  exists params. repeat split; trivial.
  intros h u p tmo H. rewrite (call_send_bound w c a B) in H.
  apply send_get_params in H as (P' & _). congruence.
Qed.

Lemma encoded_parameters_exact_witness :
  bind_arguments veh1_call = Return veh1_args
  /\ validate veh1_args = Return tt
  /\ timestamp_encodable (timestamp veh1_args) = true
  /\ exists params,
       build_params veh1_args = Return params
       /\ Dict.unique_keys params = true
       /\ (forall k, Dict.get k params
                     = match Dict.get k (custom_attributes veh1_args) with
                       | Some v => Some v
                       | None => protocol_param veh1_args k
                       end)
       /\ (forall h u p tmo,
             In (EvGet h u p tmo) (snd (call_send accepting veh1_call)) ->
             p = params).
Proof.
  split; [reflexivity|]. split; [vm_compute; reflexivity|].
  split; [reflexivity|].
  apply (encoded_parameters_exact accepting veh1_call veh1_args);
    [reflexivity | vm_compute; reflexivity | reflexivity].
Defined.

(** ** C2: invalid input fails before any I/O *)

Lemma validate_rejects (a : args) :
  truthy (device_id a) = false
  \/ number_in (-90) 90 (lat a) = false
  \/ number_in (-180) 180 (lon a) = false ->
  exists msg, validate a = Raise (mk_exn ValueError msg).
Proof.
  unfold validate, number_in. intros H.
  destruct (truthy (device_id a)); simpl; [|eauto].
  destruct (isinstance_int_float (lat a)); simpl; [|eauto].
  destruct (between (-90) 90 (lat a)); simpl; [|eauto].
  destruct (isinstance_int_float (lon a)); simpl; [|eauto].
  destruct (between (-180) 180 (lon a)); simpl; [|eauto].
  destruct H as [H|[H|H]]; discriminate H.
Qed.

Lemma validate_accepts (a : args) :
  truthy (device_id a) = true ->
  number_in (-90) 90 (lat a) = true ->
  number_in (-180) 180 (lon a) = true ->
  validate a = Return tt.
Proof.
  unfold validate, number_in. intros -> [-> ->]%andb_true_iff
    [-> ->]%andb_true_iff. reflexivity.
Qed.

(** C2.  For every call whose [device_id] is empty, or whose [lat] is not
    a number in [-90, 90], or whose [lon] is not a number in [-180, 180],
    the call raises [ValueError] and its trace is empty: no session is
    created and no request is issued. *)
Theorem invalid_input_fails_before_io (w : env) (c : call) (a : args) :
  bind_arguments c = Return a ->
  truthy (device_id a) = false
  \/ number_in (-90) 90 (lat a) = false
  \/ number_in (-180) 180 (lon a) = false ->
  exists msg, call_send w c = (Raise (mk_exn ValueError msg), []).
Proof.
  intros B H. destruct (validate_rejects a H) as [msg V].
  exists msg. rewrite (call_send_bound w c a B).
  now apply send_invalid.
Qed.

Lemma invalid_input_fails_before_io_witness :
  bind_arguments far_east_call = Return far_east_args
  /\ (truthy (device_id far_east_args) = false
      \/ number_in (-90) 90 (lat far_east_args) = false
      \/ number_in (-180) 180 (lon far_east_args) = false)
  /\ exists msg,
       call_send accepting far_east_call
       = (Raise (mk_exn ValueError msg), []).
Proof.
  split; [reflexivity|]. split; [right; right; reflexivity|].
  apply (invalid_input_fails_before_io accepting far_east_call
           far_east_args); [reflexivity | right; right; reflexivity].
Defined.

(** ** C3: only status 200 is a success *)



(** ** C4: the kinds of failure *)




(** ** C5: custom attributes *)

Example lat_twice_raises :
  call_send accepting lat_twice_call
  = (Raise (mk_exn TypeError
       "send_osmand_position() got multiple values for argument 'lat'"),
     []).
Proof. reflexivity. Qed.

(** The keyword [lat] is the parameter [lat]: given next to the positional
    latitude it stops the call, and no request carries it. *)
Lemma custom_lat_does_not_override :
  ~ sent_with accepting lat_twice_call "lat" (VInt 45).
Proof.
  intros (h & u & p & tmo & H & _). rewrite lat_twice_raises in H.
  destruct H.
Qed.

(** C5, as the code has it.  The custom attributes of a call are its
    keywords that name no parameter of the signature; they are merged with
    their keys unchanged after all the protocol fields, and the value of a
    custom key is the value in the request, also when the key is a protocol
    key ([id], [batt] and [driverUniqueId] can collide: they are no
    parameter names).  A keyword named as a parameter, such as [lat],
    [lon], [timestamp] or [speed], is that parameter and never a custom
    attribute. *)
Theorem custom_attributes_override (w : env) (c : call) (a : args) :
  bind_arguments c = Return a ->
  validate a = Return tt ->
  timestamp_encodable (timestamp a) = true ->
  exists base params,
    build_params (without_custom a) = Return base
    /\ (forall k, Dict.get k base = protocol_param a k)
    /\ build_params a = Return params
    /\ params = Dict.update base (custom_attributes a)
    /\ (forall k v,
          Dict.get k (kw_args c) = Some v ->
          is_parameter_name k = false ->
          Dict.get k (custom_attributes a) = Some v
          /\ Dict.get k params = Some v)
    /\ (forall k, is_parameter_name k = true ->
                  Dict.get k (custom_attributes a) = None)
    /\ (forall k, In k ["id"; "batt"; "driverUniqueId"] ->
                  is_parameter_name k = false)
    /\ (forall k, In k ["lat"; "lon"; "timestamp"; "speed"; "bearing";
                        "altitude"; "accuracy"; "hdop"; "charge"; "valid"] ->
                  is_parameter_name k = true)
    /\ (forall h u p tmo,
          In (EvGet h u p tmo) (snd (call_send w c)) -> p = params).
Proof.
  intros B V T.
  destruct (build_params_protocol a T) as (base & PB & _ & GB).
  pose proof (custom_attributes_unique c a B) as U.
  exists base, (Dict.update base (custom_attributes a)).
  assert (build_params a
          = Return (Dict.update base (custom_attributes a))) as P
    by now rewrite build_params_custom_last, PB.
  repeat split; trivial.
  - rewrite (custom_attributes_get c a k B), H0. exact H.
  - rewrite (DictFacts.get_update k _ U),
      (custom_attributes_get c a k B), H0, H. reflexivity.
  - intros k Hk. now rewrite (custom_attributes_get c a k B), Hk.
  - intros k Hk. simpl in Hk.
    repeat (destruct Hk as [<-|Hk]; [reflexivity|]). destruct Hk.
  - intros k Hk. simpl in Hk.
    repeat (destruct Hk as [<-|Hk]; [reflexivity|]). destruct Hk.
  - intros h u p tmo H. rewrite (call_send_bound w c a B) in H.
    apply send_get_params in H as (P' & _). congruence.
Qed.

Example colliding_params :
  build_params colliding_args
  = Return [("id", VStr "veh-2"); ("lat", VInt 10); ("lon", VInt 20);
            ("batt", VInt 3); ("room", VStr "living_room")].
Proof. reflexivity. Qed.

Lemma custom_attributes_override_witness :
  bind_arguments colliding_call = Return colliding_args
  /\ validate colliding_args = Return tt
  /\ timestamp_encodable (timestamp colliding_args) = true
  /\ exists base params,
       build_params (without_custom colliding_args) = Return base
       /\ (forall k, Dict.get k base = protocol_param colliding_args k)
       /\ build_params colliding_args = Return params
       /\ params = Dict.update base (custom_attributes colliding_args)
       /\ (forall k v,
             Dict.get k (kw_args colliding_call) = Some v ->
             is_parameter_name k = false ->
             Dict.get k (custom_attributes colliding_args) = Some v
             /\ Dict.get k params = Some v)
       /\ (forall k, is_parameter_name k = true ->
                     Dict.get k (custom_attributes colliding_args) = None)
       /\ (forall k, In k ["id"; "batt"; "driverUniqueId"] ->
                     is_parameter_name k = false)
       /\ (forall k, In k ["lat"; "lon"; "timestamp"; "speed"; "bearing";
                           "altitude"; "accuracy"; "hdop"; "charge";
                           "valid"] ->
                     is_parameter_name k = true)
       /\ (forall h u p tmo,
             In (EvGet h u p tmo) (snd (call_send accepting colliding_call))
             -> p = params).
Proof.
  split; [reflexivity|]. split; [reflexivity|]. split; [reflexivity|].
  apply (custom_attributes_override accepting colliding_call
           colliding_args); reflexivity.
Defined.

(** ** C6: the life of the session *)

Lemma reaches_request_inv (a : args) :
  reaches_request a = true ->
  exists p u, validate a = Return tt /\ build_params a = Return p
              /\ strip_url (traccar_url a) = Return u.
Proof.
  unfold reaches_request.
  destruct (validate a) as [[]|]; [|discriminate].
  destruct (build_params a) as [p|]; [|discriminate].
  destruct (strip_url (traccar_url a)) as [u|]; [|discriminate].
  intros _. now exists p, u.
Qed.

Lemma stops_early (w : env) (a : args) :
  reaches_request a = false ->
  snd (send_osmand_position w a []) = [].
Proof.
  unfold reaches_request. intros R.
  destruct (validate a) as [[]|e] eqn:V;
    [|now rewrite (send_invalid w a e [] V)].
  destruct (build_params a) as [p|e] eqn:P;
    [|now rewrite (send_unencodable w a e [] V P)].
  destruct (strip_url (traccar_url a)) as [u|e] eqn:S;
    [discriminate R|now rewrite (send_bad_url w a p e [] V P S)].
Qed.

Lemma after_get_no_session_event (o : get_outcome) :
  forallb (fun ev => negb (is_session_event ev)) (snd (after_get o)) = true.
Proof.
  destruct (after_get_trace o) as [->|(-> & _)]; reflexivity.
Qed.

(** C6.  Whatever the network answers (success, a status other than 200,
    a network error, a timeout, a cancellation): when the caller supplies a
    session, the trace of the call has no session event at all, so the
    session is never closed; when no session is supplied and the call gets
    as far as the request, its trace starts with the creation of a session
    and ends with the closing of that same session, with no other session
    event in between; a call stopped before that creates no session. *)
Theorem session_lifecycle (w : env) (a : args) :
  let tr := snd (send_osmand_position w a []) in
  match session a with
  | VNone =>
      if reaches_request a
      then exists mid,
             tr = (EvSessionOpen (new_session w) :: mid
                     ++ [EvSessionClose (new_session w)])%list
             /\ forallb (fun ev => negb (is_session_event ev)) mid = true
      else tr = []
  | _ => forallb (fun ev => negb (is_session_event ev)) tr = true
  end.
Proof.
  intros tr. subst tr.
  destruct (reaches_request a) eqn:R.
  - destruct (reaches_request_inv a R) as (p & u & V & P & S).
    destruct (session a) as [| | | | | |h] eqn:Es;
      try (rewrite (send_run w a p u [] V P S), Es; reflexivity).
    + rewrite (send_trace w a p u (new_session w) V P S)
        by now rewrite Es.
      rewrite Es. cbn [is_none app].
      exists (EvGet (new_session w) u p (timeout a)
                :: snd (after_get
                          (http_get w (new_session w) u p (timeout a)))).
      split; [reflexivity|]. cbn [forallb is_session_event negb andb].
      apply after_get_no_session_event.
    + rewrite (send_trace w a p u h V P S) by now rewrite Es.
      rewrite Es. cbn [is_none app forallb is_session_event negb andb].
      rewrite app_nil_r. apply after_get_no_session_event.
  - rewrite (stops_early w a R). now destruct (session a).
Qed.

(** ** C7: the timestamp *)

(** C7.  2024-01-01T00:00:00Z is encoded as 1704067200000, its exact
    number of milliseconds.  1970-01-01T00:00:01.001Z, which is 1001
    milliseconds after the epoch, is encoded as 1000: its float number of
    seconds times 1000 is the float just below 1001, and [int] truncates
    it. *)
Theorem timestamp_float_truncation :
  Datetime.exact_epoch_millis new_year_2024 = 1704067200000
  /\ build_params (stamped_args new_year_2024)
     = Return [("id", VStr "veh-1"); ("lat", VInt 10); ("lon", VInt 20);
               ("timestamp", VInt 1704067200000)]
  /\ Datetime.exact_epoch_millis epoch_plus_1001ms = 1001
  /\ Datetime.timestamp epoch_plus_1001ms
     = S754_finite false 4508103226997866 (-52)
  /\ PyFloat.mul (Datetime.timestamp epoch_plus_1001ms) (PyFloat.of_Z 1000)
     = S754_finite false 8804889115230207 (-43)
  /\ timestamp_millis epoch_plus_1001ms = Some 1000
  /\ build_params (stamped_args epoch_plus_1001ms)
     = Return [("id", VStr "veh-1"); ("lat", VInt 10); ("lon", VInt 20);
               ("timestamp", VInt 1000)].
Proof. repeat split; vm_compute; reflexivity. Qed.

(** ** C8: the effects of a call *)




(** ** C9: boolean coordinates *)

Example boolean_call_trace :
  call_send accepting boolean_call
  = (Return (VBool true),
     [EvSessionOpen 1;
      EvGet 1 "http://localhost:5055"
        [("id", VStr "veh-1"); ("lat", VBool true); ("lon", VBool false)]
        (VInt 30);
      EvPrint "Traccar request succeeded with status 200";
      EvSessionClose 1]).
Proof. reflexivity. Qed.

(** The latitude [True] stays the object [True] in the dictionary; it is
    not converted to the integer 1. *)
Lemma boolean_lat_is_not_converted : ~ lat_sent_as_int boolean_args 1.
Proof.
  intros (params & P & G). vm_compute in P. injection P as <-.
  discriminate G.
Qed.

Lemma validate_not_lat_error (a : args) (b : bool) (e : exn) :
  lat a = VBool b ->
  validate a = Raise e ->
  exn_msg e <> "lat must be a number between -90 and 90".
Proof.
  unfold validate. intros ->.
  destruct (truthy (device_id a)); cbn [negb];
    [|intros [= <-]; discriminate].
  replace (negb (isinstance_int_float (VBool b))
           || negb (between (-90) 90 (VBool b))) with false
    by now destruct b.
  destruct (negb (isinstance_int_float (lon a))
            || negb (between (-180) 180 (lon a)));
    [intros [= <-]; discriminate | discriminate].
Qed.

Lemma validate_not_lon_error (a : args) (b : bool) (e : exn) :
  lon a = VBool b ->
  validate a = Raise e ->
  exn_msg e <> "lon must be a number between -180 and 180".
Proof.
  unfold validate. intros ->.
  destruct (truthy (device_id a)); cbn [negb];
    [|intros [= <-]; discriminate].
  destruct (negb (isinstance_int_float (lat a))
            || negb (between (-90) 90 (lat a)));
    [intros [= <-]; discriminate|].
  replace (negb (isinstance_int_float (VBool b))
           || negb (between (-180) 180 (VBool b))) with false
    by now destruct b.
  discriminate.
Qed.

(** C9, as the code has it.  A [bool] given as [lat] or [lon] passes the
    numeric validation, where it counts as the number 1 or 0: the error
    branch of that coordinate is never taken, and with both coordinates
    boolean and a device id the validation raises nothing.  The dictionary
    then holds the boolean object itself under [lat] or [lon]; it is not
    converted to the integer 1 or 0. *)
Theorem boolean_coordinates_pass (c : call) (a : args) :
  bind_arguments c = Return a ->
  timestamp_encodable (timestamp a) = true ->
  (forall b, lat a = VBool b ->
     number_in (-90) 90 (lat a) = true
     /\ between (-90) 90 (lat a) = between (-90) 90 (VInt (Z.b2z b))
     /\ (forall e, validate a = Raise e ->
           exn_msg e <> "lat must be a number between -90 and 90")
     /\ exists params,
          build_params a = Return params
          /\ Dict.get "lat" params = Some (VBool b))
  /\ (forall b, lon a = VBool b ->
        number_in (-180) 180 (lon a) = true
        /\ between (-180) 180 (lon a) = between (-180) 180 (VInt (Z.b2z b))
        /\ (forall e, validate a = Raise e ->
              exn_msg e <> "lon must be a number between -180 and 180")
        /\ exists params,
             build_params a = Return params
             /\ Dict.get "lon" params = Some (VBool b))
  /\ (forall b b', lat a = VBool b -> lon a = VBool b' ->
        truthy (device_id a) = true -> validate a = Return tt).
Proof.
  intros B T.
  destruct (build_params_get a T (custom_attributes_unique c a B))
    as (params & P & _ & G).
  split; [|split];
    [| |intros b b' E E' D; apply validate_accepts; trivial;
         [rewrite E; now destruct b | rewrite E'; now destruct b']];
    intros b E.
  - split; [rewrite E; now destruct b|].
    split; [rewrite E; reflexivity|].
    split; [intros e; now apply validate_not_lat_error with b|].
    exists params. split; [exact P|].
    rewrite G, (custom_attributes_get c a "lat" B). cbn. now rewrite E.
  - split; [rewrite E; now destruct b|].
    split; [rewrite E; reflexivity|].
    split; [intros e; now apply validate_not_lon_error with b|].
    exists params. split; [exact P|].
    rewrite G, (custom_attributes_get c a "lon" B). cbn. now rewrite E.
Qed.

Lemma boolean_coordinates_pass_witness :
  bind_arguments boolean_call = Return boolean_args
  /\ timestamp_encodable (timestamp boolean_args) = true
  /\ (forall b, lat boolean_args = VBool b ->
        number_in (-90) 90 (lat boolean_args) = true
        /\ between (-90) 90 (lat boolean_args)
           = between (-90) 90 (VInt (Z.b2z b))
        /\ (forall e, validate boolean_args = Raise e ->
              exn_msg e <> "lat must be a number between -90 and 90")
        /\ exists params,
             build_params boolean_args = Return params
             /\ Dict.get "lat" params = Some (VBool b))
  /\ (forall b, lon boolean_args = VBool b ->
        number_in (-180) 180 (lon boolean_args) = true
        /\ between (-180) 180 (lon boolean_args)
           = between (-180) 180 (VInt (Z.b2z b))
        /\ (forall e, validate boolean_args = Raise e ->
              exn_msg e <> "lon must be a number between -180 and 180")
        /\ exists params,
             build_params boolean_args = Return params
             /\ Dict.get "lon" params = Some (VBool b))
  /\ (forall b b', lat boolean_args = VBool b ->
        lon boolean_args = VBool b' ->
        truthy (device_id boolean_args) = true ->
        validate boolean_args = Return tt).
Proof.
  split; [reflexivity|]. split; [reflexivity|].
  apply (boolean_coordinates_pass boolean_call boolean_args); reflexivity.
Defined.

(** ** C10: the last known battery level *)

Lemma run_app (w : env) (cfg : Main.config) (evs1 evs2 : list Main.device_event)
    (g : Main.globals) :
  Main.run w cfg g (evs1 ++ evs2)%list
  = (fst (Main.run w cfg (fst (Main.run w cfg g evs1)) evs2),
     (snd (Main.run w cfg g evs1)
        ++ snd (Main.run w cfg (fst (Main.run w cfg g evs1)) evs2))%list).
Proof.
  revert g. induction evs1 as [|ev evs1 IH]; intros g; cbn [app Main.run].
  - cbn [fst snd app]. now destruct (Main.run w cfg g evs2).
  - destruct (Main.on_event w cfg g ev) as [g' t]. rewrite IH.
    destruct (Main.run w cfg g' evs1) as [g1 ts1]. cbn [fst snd].
    destruct (Main.run w cfg g1 evs2) as [g2 ts2]. reflexivity.
Qed.

Lemma run_length (w : env) (cfg : Main.config) (evs : list Main.device_event)
    (g : Main.globals) :
  List.length (snd (Main.run w cfg g evs)) = List.length evs.
Proof.
  revert g. induction evs as [|ev evs IH]; intros g; [reflexivity|].
  cbn [Main.run]. destruct (Main.on_event w cfg g ev) as [g' t].
  specialize (IH g'). destruct (Main.run w cfg g' evs) as [g'' ts].
  cbn in *. now rewrite IH.
Qed.

(** The module-level variable after a sequence of events: the last
    battery level seen, or what it was before when none was seen. *)
Lemma run_lastKnownBattery (w : env) (cfg : Main.config)
    (evs : list Main.device_event) (g : Main.globals) :
  Main.lastKnownBattery (fst (Main.run w cfg g evs))
  = match last_battery evs with
    | Some v => VInt v
    | None => Main.lastKnownBattery g
    end.
Proof.
  revert g. induction evs as [|ev evs IH]; intros g; [reflexivity|].
  cbn [Main.run last_battery].
  destruct (Main.on_event w cfg g ev) as [g' t] eqn:E.
  specialize (IH g'). destruct (Main.run w cfg g' evs) as [g'' ts].
  cbn [fst] in *. rewrite IH.
  destruct (last_battery evs); [reflexivity|].
  destruct ev; cbn in E; injection E as <- _; reflexivity.
Qed.

(** The report does what its call of [send_osmand_position] does. *)
Lemma sendGps_trace (w : env) (cfg : Main.config) (g : Main.globals)
    (e : Main.GpsPositionEvent) :
  snd (Main.sendGpsPositionToTraccar w cfg g e)
  = snd (call_send w (Main.gps_call cfg g e)).
Proof.
  unfold Main.sendGpsPositionToTraccar.
  now destruct (call_send w (Main.gps_call cfg g e)) as [[v|x] t].
Qed.

(** The request of a position report carries the battery level of the
    globals, or no [batt] at all when it is [None]. *)
Lemma gps_report_batt (w : env) (cfg : Main.config) (g : Main.globals)
    (e : Main.GpsPositionEvent) (h : nat) (u : string) (p : dict)
    (tmo : value) :
  In (EvGet h u p tmo) (snd (Main.sendGpsPositionToTraccar w cfg g e)) ->
  Dict.get "batt" p = given (Main.lastKnownBattery g).
Proof.
  rewrite sendGps_trace. intros H.
  destruct (bind_arguments (Main.gps_call cfg g e)) as [a|x] eqn:B;
    [|unfold call_send in H; rewrite B in H; destruct H].
  rewrite (call_send_bound w _ a B) in H.
  apply send_get_params in H as (P & _).
  destruct (bind_arguments_inv _ _ B) as (_ & C & Bat & _ & Ts & _).
  cbn in C, Bat, Ts.
  assert (timestamp_encodable (timestamp a) = true) as T by now rewrite Ts.
  assert (Dict.unique_keys (custom_attributes a) = true) as U
    by now rewrite C.
  destruct (build_params_get a T U) as (p' & P' & _ & G).
  assert (p' = p) as -> by congruence.
  rewrite G, C. cbn. rewrite Bat.
  now destruct (given (Main.lastKnownBattery g)).
Qed.

Example morning_run :
  snd (Main.run accepting home Main.initial morning)
  = [ [EvSessionOpen 1;
       EvGet 1 "http://localhost:5055"
         [("id", VStr "veh-1"); ("lat", lit 377749 10000);
          ("lon", lit (-1224194) 10000)] (VInt 30);
       EvPrint "Traccar request succeeded with status 200";
       EvSessionClose 1];
      [EvPrint "POS PositionsEvent"];
      [];
      [EvSessionOpen 1;
       EvGet 1 "http://localhost:5055"
         [("id", VStr "veh-1"); ("lat", lit 377750 10000);
          ("lon", lit (-1224194) 10000); ("batt", VInt 85)] (VInt 30);
       EvPrint "Traccar request succeeded with status 200";
       EvSessionClose 1] ].
Proof. vm_compute. reflexivity. Qed.

Lemma last_battery_none (evs : list Main.device_event) :
  no_battery evs = true -> last_battery evs = None.
Proof.
  induction evs as [|ev evs IH]; [reflexivity|]. cbn.
  intros [Hev Hevs]%andb_true_iff. rewrite (IH Hevs).
  now destruct ev.
Qed.

Lemma last_battery_after (pre mid : list Main.device_event)
    (b : Main.BatteryEvent) :
  no_battery mid = true ->
  last_battery (pre ++ Main.Battery b :: mid)%list
  = Some (Main.battery_value b).
Proof.
  intros Hmid. induction pre as [|ev pre IH]; cbn.
  - now rewrite (last_battery_none mid Hmid).
  - now rewrite IH.
Qed.

Lemma gps_call_bound (cfg : Main.config) (g : Main.globals)
    (e : Main.GpsPositionEvent) :
  bind_arguments (Main.gps_call cfg g e)
  = Return {| traccar_url := Main.cfg_traccar_url cfg;
              device_id := Main.cfg_did cfg;
              lat := Main.latitude e; lon := Main.longitude e;
              timestamp := VNone; speed := VNone; bearing := VNone;
              altitude := VNone; accuracy := VNone; hdop := VNone;
              battery := Main.lastKnownBattery g; charge := VNone;
              valid := VNone; driver_unique_id := VNone;
              session := VNone; timeout := VInt 30;
              custom_attributes := [] |}.
Proof. reflexivity. Qed.

(** A reportable position is reported: one request through a session of
    the call's own, with the battery level of the globals after the
    position, or without [batt] when that level is [None]. *)
Lemma gps_report_sent (w : env) (cfg : Main.config) (g : Main.globals)
    (e : Main.GpsPositionEvent) :
  reportable cfg e = true ->
  report_with w cfg e
    (if is_none (Main.lastKnownBattery g) then []
     else [("batt", Main.lastKnownBattery g)])
    (snd (Main.sendGpsPositionToTraccar w cfg g e)).
Proof.
  unfold reportable. intros R.
  apply andb_true_iff in R as [R Hlon].
  apply andb_true_iff in R as [R Hlat].
  apply andb_true_iff in R as [Hurl Hdid].
  destruct (Main.cfg_traccar_url cfg) as [| | | |s| |] eqn:Eurl;
    try discriminate Hurl.
  rewrite sendGps_trace.
  rewrite (call_send_bound w _ _ (gps_call_bound cfg g e)).
  set (a := {| traccar_url := Main.cfg_traccar_url cfg |}).
  assert (validate a = Return tt) as V
    by (apply validate_accepts; assumption).
  pose (p := ([("id", Main.cfg_did cfg); ("lat", Main.latitude e);
               ("lon", Main.longitude e)]
                ++ (if is_none (Main.lastKnownBattery g) then []
                    else [("batt", Main.lastKnownBattery g)]))%list).
  assert (build_params a = Return p) as P.
  { unfold build_params, set_if_given. subst a p.
    cbn [timestamp speed bearing altitude accuracy hdop battery charge
         valid driver_unique_id custom_attributes device_id lat lon
         is_none rbind Dict.update fold_left].
    now destruct (is_none (Main.lastKnownBattery g)). }
  assert (strip_url (traccar_url a) = Return (rstrip_slash s)) as S
    by (subst a; cbn [traccar_url]; now rewrite Eurl).
  rewrite (send_trace w a p (rstrip_slash s) (new_session w) V P S eq_refl).
  exists s.
  exists (snd (after_get
                 (http_get w (new_session w) (rstrip_slash s) p
                    (timeout a)))).
  split; [exact Eurl|]. split; [|reflexivity].
  destruct (after_get_cases
              (http_get w (new_session w) (rstrip_slash s) p (timeout a)))
    as [[x ->]|[-> _]]; [now left|now right].
Qed.

(** C10.  In a run of the handlers from the initial globals, the handler
    of a position event that comes after the events [before] does what
    [sendGpsPositionToTraccar] does with the globals left by [before].
    When [before] has no [BatteryEvent], [lastKnownBattery] is [None], no
    request of the report has a [batt] entry, and a reportable position is
    sent in one request whose parameters are id, lat and lon only.  When
    the last [BatteryEvent] of [before] is [b], [lastKnownBattery] is the
    level of [b], every request of the report carries it under [batt], and
    a reportable position is sent in one request whose parameters are id,
    lat, lon and batt with that level. *)
Theorem battery_follows_last_event (w : env) (cfg : Main.config)
    (before after : list Main.device_event) (e : Main.GpsPositionEvent) :
  let g := fst (Main.run w cfg Main.initial before) in
  let report := snd (Main.sendGpsPositionToTraccar w cfg g e) in
  nth_error (snd (Main.run w cfg Main.initial
                    (before ++ Main.Gps e :: after)%list))
            (List.length before) = Some report
  /\ (no_battery before = true ->
      Main.lastKnownBattery g = VNone
      /\ batt_is None report
      /\ (reportable cfg e = true -> report_with w cfg e [] report))
  /\ (forall pre b mid,
        before = (pre ++ Main.Battery b :: mid)%list ->
        no_battery mid = true ->
        Main.lastKnownBattery g = VInt (Main.battery_value b)
        /\ batt_is (Some (VInt (Main.battery_value b))) report
        /\ (reportable cfg e = true ->
            report_with w cfg e [("batt", VInt (Main.battery_value b))]
              report)).
Proof.
  intros g report.
  assert (Main.lastKnownBattery g = battery_seen (last_battery before))
    as L.
  { subst g. rewrite run_lastKnownBattery.
    now destruct (last_battery before). }
  assert (batt_is (given (Main.lastKnownBattery g)) report) as R.
  { apply Forall_forall. intros [|h u p tmo| |] H; trivial.
    exact (gps_report_batt w cfg g e h u p tmo H). }
  pose proof (gps_report_sent w cfg g e) as Sent. fold report in Sent.
  split; [|split].
  - subst g report. rewrite run_app. cbn [snd].
    rewrite nth_error_app2 by now rewrite run_length.
    rewrite run_length, Nat.sub_diag.
    cbn [Main.run Main.on_event Main.on_gps_position].
    destruct (Main.run w cfg _ after). reflexivity.
  - intros N. rewrite (last_battery_none before N) in L.
    rewrite L in R, Sent |- *.
    split; [reflexivity|split; [exact R|exact Sent]].
  - intros pre b mid -> N. rewrite (last_battery_after pre mid b N) in L.
    rewrite L in R, Sent |- *.
    split; [reflexivity|split; [exact R|exact Sent]].
Qed.

(** The second position of the morning, after the battery level 85: the
    theorem gives its report, one request that carries [batt=85]. *)
Lemma battery_follows_last_event_witness :
  reportable home (Main.mk_gps (lit 377750 10000) (lit (-1224194) 10000))
  = true
  /\ report_with accepting home
       (Main.mk_gps (lit 377750 10000) (lit (-1224194) 10000))
       [("batt", VInt 85)]
       (snd (Main.sendGpsPositionToTraccar accepting home
               (fst (Main.run accepting home Main.initial
                       [Main.Gps (Main.mk_gps (lit 377749 10000)
                                    (lit (-1224194) 10000));
                        Main.Positions "PositionsEvent";
                        Main.Battery (Main.mk_battery 85)]))
               (Main.mk_gps (lit 377750 10000) (lit (-1224194) 10000)))).
Proof.
  split; [vm_compute; reflexivity|].
  pose proof (battery_follows_last_event accepting home
                [Main.Gps (Main.mk_gps (lit 377749 10000)
                             (lit (-1224194) 10000));
                 Main.Positions "PositionsEvent";
                 Main.Battery (Main.mk_battery 85)]
                []
                (Main.mk_gps (lit 377750 10000) (lit (-1224194) 10000)))
    as T.
  cbv zeta in T. destruct T as (_ & _ & T).
  destruct (T [Main.Gps (Main.mk_gps (lit 377749 10000)
                           (lit (-1224194) 10000));
               Main.Positions "PositionsEvent"]
              (Main.mk_battery 85) [] eq_refl eq_refl) as (_ & _ & Sent).
  apply Sent. vm_compute. reflexivity.
Defined.

(** The morning of the sample: the first report has no [batt], the second
    carries the level 85 seen in between. *)
Example morning_reports :
  batt_is None
    (snd (Main.sendGpsPositionToTraccar accepting home Main.initial
            (Main.mk_gps (lit 377749 10000) (lit (-1224194) 10000))))
  /\ no_battery [Main.Positions "PositionsEvent"] = true
  /\ nth_error (snd (Main.run accepting home Main.initial morning)) 3
     = Some [EvSessionOpen 1;
             EvGet 1 "http://localhost:5055"
               [("id", VStr "veh-1"); ("lat", lit 377750 10000);
                ("lon", lit (-1224194) 10000); ("batt", VInt 85)] (VInt 30);
             EvPrint "Traccar request succeeded with status 200";
             EvSessionClose 1].
Proof.
  split; [|split; vm_compute; reflexivity].
  vm_compute. repeat constructor.
Qed.

(** * Further properties of the code *)

(** ** The URL of the request *)

Lemma rstrip_slash_end (s : string) :
  ends_with_slash (rstrip_slash s) = false.
Proof.
  induction s as [|c s IH]; [reflexivity|]. cbn [rstrip_slash].
  destruct (rstrip_slash s) as [|c' r].
  - destruct (Ascii.eqb c "/") eqn:E; [reflexivity|]. cbn. exact E.
  - exact IH.
Qed.

Lemma rstrip_slash_split (s : string) :
  exists n, s = rstrip_slash s ++ slashes n.
Proof.
  induction s as [|c s [n IH]]; [now exists 0%nat|]. cbn [rstrip_slash].
  destruct (rstrip_slash s) as [|c' r].
  - destruct (Ascii.eqb_spec c "/") as [->|_].
    + exists (S n). cbn in *. now rewrite IH at 1.
    + exists n. cbn in *. now rewrite IH at 1.
  - exists n. cbn in *. now rewrite IH at 1.
Qed.

(** X1.  The URL of every request is the [traccar_url] of the call without
    its trailing slashes, all of them: the URL does not end with a slash,
    and [traccar_url] is that URL followed by slashes only. *)
Theorem request_url_stripped (w : env) (c : call) (a : args) (h : nat)
    (u : string) (p : dict) (tmo : value) :
  bind_arguments c = Return a ->
  In (EvGet h u p tmo) (snd (call_send w c)) ->
  ends_with_slash u = false
  /\ exists n, traccar_url a = VStr (u ++ slashes n).
Proof.
  intros B H. rewrite (call_send_bound w c a B) in H.
  apply send_get_params in H as (_ & S & _).
  destruct (traccar_url a) as [| | | |s| |]; try discriminate S.
  injection S as <-. split; [apply rstrip_slash_end|].
  destruct (rstrip_slash_split s) as [n E]. exists n. now rewrite <- E.
Qed.

Lemma request_url_stripped_witness :
  bind_arguments veh1_call = Return veh1_args
  /\ In (EvGet 1 "http://localhost:5055" veh1_params (VInt 30))
        (snd (call_send accepting veh1_call))
  /\ ends_with_slash "http://localhost:5055" = false
  /\ exists n,
       traccar_url veh1_args = VStr ("http://localhost:5055" ++ slashes n).
Proof.
  split; [reflexivity|]. split; [vm_compute; right; left; reflexivity|].
  apply (request_url_stripped accepting veh1_call veh1_args 1
           "http://localhost:5055" veh1_params (VInt 30));
    [reflexivity | vm_compute; right; left; reflexivity].
Defined.

(** ** The session and the timeout of the request *)

Lemma bind_arguments_timeout (c : call) (a : args) :
  bind_arguments c = Return a ->
  timeout a = bind_keyword c "timeout" (VInt 30).
Proof.
  unfold bind_arguments.
  destruct (4 <? List.length (pos_args c))%nat; [discriminate|].
  destruct (Dict.unique_keys (kw_args c)); [simpl|discriminate].
  destruct (bind_positional c 0 "traccar_url"); [simpl|discriminate].
  destruct (bind_positional c 1 "device_id"); [simpl|discriminate].
  destruct (bind_positional c 2 "lat"); [simpl|discriminate].
  destruct (bind_positional c 3 "lon"); [simpl|discriminate].
  now intros [= <-].
Qed.

(** X2.  Every request of a call is bounded by the [timeout] keyword of the
    call, or by 30 seconds when the call gives none, and goes through the
    session given with the [session] keyword, or through the session the
    call has created when it gives none (or gives [None]). *)
Theorem request_timeout_and_session (w : env) (c : call) (a : args)
    (h : nat) (u : string) (p : dict) (tmo : value) :
  bind_arguments c = Return a ->
  In (EvGet h u p tmo) (snd (call_send w c)) ->
  tmo = match Dict.get "timeout" (kw_args c) with
        | Some v => v
        | None => VInt 30
        end
  /\ match Dict.get "session" (kw_args c) with
     | Some (VSession h') => h = h'
     | _ => h = new_session w
     end.
Proof.
  intros B H. rewrite (call_send_bound w c a B) in H.
  apply send_get_params in H as (_ & _ & -> & S).
  split; [exact (bind_arguments_timeout c a B)|].
  destruct (bind_arguments_inv c a B) as (_ & _ & _ & Es & _).
  unfold bind_keyword in Es. rewrite Es in S.
  destruct (Dict.get "session" (kw_args c)) as [[| | | | | |h']|];
    cbn in S; congruence.
Qed.

Lemma request_timeout_and_session_witness :
  bind_arguments veh1_call = Return veh1_args
  /\ In (EvGet 1 "http://localhost:5055" veh1_params (VInt 30))
        (snd (call_send accepting veh1_call))
  /\ VInt 30 = match Dict.get "timeout" (kw_args veh1_call) with
               | Some v => v
               | None => VInt 30
               end
  /\ match Dict.get "session" (kw_args veh1_call) with
     | Some (VSession h') => 1%nat = h'
     | _ => 1%nat = new_session accepting
     end.
Proof.
  split; [reflexivity|]. split; [vm_compute; right; left; reflexivity|].
  apply (request_timeout_and_session accepting veh1_call veh1_args 1
           "http://localhost:5055" veh1_params (VInt 30));
    [reflexivity | vm_compute; right; left; reflexivity].
Defined.

(** ** Coordinates at and beyond the bounds *)

(** X3.  The bounds are inclusive: with a device id, integer coordinates
    pass the validation exactly when the latitude is within -90 and 90 and
    the longitude within -180 and 180, the poles and the antimeridian
    included. *)
Theorem integer_coordinates_bounds (a : args) (n m : Z) :
  truthy (device_id a) = true ->
  lat a = VInt n ->
  lon a = VInt m ->
  validate a = Return tt <-> (-90 <= n <= 90 /\ -180 <= m <= 180).
Proof.
  intros D En Em. unfold validate. rewrite D, En, Em.
  cbn [negb isinstance_int_float between orb].
  destruct (Z.leb_spec (-90) n), (Z.leb_spec n 90),
    (Z.leb_spec (-180) m), (Z.leb_spec m 180); cbn;
    split; intros; try discriminate; try reflexivity; lia.
Qed.

Lemma integer_coordinates_bounds_witness :
  truthy (device_id north_pole_args) = true
  /\ lat north_pole_args = VInt 90
  /\ lon north_pole_args = VInt (-180)
  /\ (validate north_pole_args = Return tt
      <-> (-90 <= 90 <= 90 /\ -180 <= -180 <= 180)).
Proof.
  split; [reflexivity|]. split; [reflexivity|]. split; [reflexivity|].
  apply (integer_coordinates_bounds north_pole_args 90 (-180));
    reflexivity.
Defined.

(** X4.  A latitude or a longitude that is a NaN or an infinity is
    refused like any other value out of range: the call raises
    [ValueError] and does nothing else. *)
Theorem non_finite_coordinates_refused (w : env) (c : call) (a : args) :
  bind_arguments c = Return a ->
  not_finite (lat a) = true \/ not_finite (lon a) = true ->
  exists msg, call_send w c = (Raise (mk_exn ValueError msg), []).
Proof.
  intros B H. rewrite (call_send_bound w c a B).
  destruct (validate_rejects a) as [msg V].
  - destruct H as [H|H]; [right; left|right; right]; unfold number_in.
    + destruct (lat a) as [| | |x| | |]; try discriminate H.
      destruct x as [?|[]| |]; try discriminate H; reflexivity.
    + destruct (lon a) as [| | |x| | |]; try discriminate H.
      destruct x as [?|[]| |]; try discriminate H; reflexivity.
  - exists msg. now apply send_invalid.
Qed.

Lemma non_finite_coordinates_refused_witness :
  bind_arguments nan_call = Return nan_args
  /\ (not_finite (lat nan_args) = true \/ not_finite (lon nan_args) = true)
  /\ exists msg,
       call_send accepting nan_call = (Raise (mk_exn ValueError msg), []).
Proof.
  split; [reflexivity|]. split; [left; reflexivity|].
  apply (non_finite_coordinates_refused accepting nan_call nan_args);
    [reflexivity | left; reflexivity].
Defined.

(** ** A timestamp that is a number or a string *)

(** X5.  A [timestamp] given as a [bool], an [int], a [float] or a [str]
    (a number of seconds, an ISO string) is not converted: these types
    have no [timestamp] method, so after a successful validation the call
    raises [AttributeError] and does nothing else; no session is created
    and no request is issued. *)
Theorem scalar_timestamp_raises (w : env) (c : call) (a : args) :
  bind_arguments c = Return a ->
  validate a = Return tt ->
  builtin_scalar (timestamp a) = true ->
  exists msg, call_send w c = (Raise (mk_exn AttributeError msg), []).
Proof.
  intros B V N. rewrite (call_send_bound w c a B).
  assert (exists msg,
            build_params a = Raise (mk_exn AttributeError msg)) as [msg P].
  { unfold build_params.
    destruct (timestamp a) as [| | | | |d|]; try discriminate N;
      cbn; eauto. }
  exists msg. now apply send_unencodable.
Qed.

Lemma scalar_timestamp_raises_witness :
  bind_arguments epoch_seconds_call = Return epoch_seconds_args
  /\ validate epoch_seconds_args = Return tt
  /\ builtin_scalar (timestamp epoch_seconds_args) = true
  /\ exists msg,
       call_send accepting epoch_seconds_call
       = (Raise (mk_exn AttributeError msg), []).
Proof.
  split; [reflexivity|]. split; [reflexivity|]. split; [reflexivity|].
  apply (scalar_timestamp_raises accepting epoch_seconds_call
           epoch_seconds_args); reflexivity.
Defined.

(** ** Flags that are no booleans *)

(** X6.  [charge] and [valid] are encoded by their truth value, whatever
    their type: every non-empty string, the string "false" included, is
    sent as "true", and an integer is sent as "false" exactly when it is
    0. *)
Theorem flags_encoded_by_truth_value (c : call) (a : args) :
  bind_arguments c = Return a ->
  timestamp_encodable (timestamp a) = true ->
  exists params,
    build_params a = Return params
    /\ (forall s, charge a = VStr s -> s <> "" ->
          Dict.get "charge" params = Some (VStr "true"))
    /\ (forall s, valid a = VStr s -> s <> "" ->
          Dict.get "valid" params = Some (VStr "true"))
    /\ (forall n, charge a = VInt n ->
          Dict.get "charge" params
          = Some (VStr (if n =? 0 then "false" else "true")))
    /\ (forall n, valid a = VInt n ->
          Dict.get "valid" params
          = Some (VStr (if n =? 0 then "false" else "true"))).
Proof.
  intros B T.
  destruct (build_params_get a T (custom_attributes_unique c a B))
    as (params & P & _ & G).
  exists params. split; [exact P|].
  repeat split.
  - intros s E Hs. rewrite G, (custom_attributes_get c a "charge" B).
    cbn. rewrite E. cbn.
    destruct (String.eqb_spec s ""); [contradiction|reflexivity].
  - intros s E Hs. rewrite G, (custom_attributes_get c a "valid" B).
    cbn. rewrite E. cbn.
    destruct (String.eqb_spec s ""); [contradiction|reflexivity].
  - intros n E. rewrite G, (custom_attributes_get c a "charge" B).
    cbn. rewrite E. cbn. now destruct (n =? 0).
  - intros n E. rewrite G, (custom_attributes_get c a "valid" B).
    cbn. rewrite E. cbn. now destruct (n =? 0).
Qed.

Lemma flags_encoded_by_truth_value_witness :
  bind_arguments string_flag_call = Return string_flag_args
  /\ timestamp_encodable (timestamp string_flag_args) = true
  /\ exists params,
       build_params string_flag_args = Return params
       /\ (forall s, charge string_flag_args = VStr s -> s <> "" ->
             Dict.get "charge" params = Some (VStr "true"))
       /\ (forall s, valid string_flag_args = VStr s -> s <> "" ->
             Dict.get "valid" params = Some (VStr "true"))
       /\ (forall n, charge string_flag_args = VInt n ->
             Dict.get "charge" params
             = Some (VStr (if n =? 0 then "false" else "true")))
       /\ (forall n, valid string_flag_args = VInt n ->
             Dict.get "valid" params
             = Some (VStr (if n =? 0 then "false" else "true"))).
Proof.
  split; [reflexivity|]. split; [reflexivity|].
  apply (flags_encoded_by_truth_value string_flag_call string_flag_args);
    reflexivity.
Defined.

(** ** An error body that cannot be read *)

(** X7.  When the status is not 200 and reading the body of the response
    fails, the call raises the exception of the reading, not the
    [ClientError] with the status; it has issued its one request, and it
    still closes the session it has created. *)
Theorem unreadable_body_raises_read_error (w : env) (a : args) (p : dict)
    (u : string) (h : nat) (status : Z) (e : exn) :
  validate a = Return tt ->
  build_params a = Return p ->
  strip_url (traccar_url a) = Return u ->
  session_handle w (session a) = Some h ->
  http_get w h u p (timeout a) = GetResponse status (BodyRaises e) ->
  status <> 200 ->
  send_osmand_position w a []
  = (Raise e,
     if is_none (session a)
     then [EvSessionOpen h; EvGet h u p (timeout a); EvSessionClose h]
     else [EvGet h u p (timeout a)]).
Proof.
  intros V P S H G Hs.
  rewrite (surjective_pairing (send_osmand_position w a [])).
  rewrite (send_outcome w a p u h V P S H),
    (send_trace w a p u h V P S H), G.
  cbn [after_get]. destruct (Z.eqb_spec status 200); [contradiction|].
  now destruct (is_none (session a)).
Qed.

Lemma unreadable_body_raises_read_error_witness :
  validate veh1_args = Return tt
  /\ build_params veh1_args = Return veh1_params
  /\ strip_url (traccar_url veh1_args) = Return "http://localhost:5055"
  /\ session_handle dropping (session veh1_args) = Some 1%nat
  /\ http_get dropping 1 "http://localhost:5055" veh1_params
       (timeout veh1_args)
     = GetResponse 500
         (BodyRaises (mk_exn ClientOSError "Connection reset by peer"))
  /\ 500 <> 200
  /\ send_osmand_position dropping veh1_args []
     = (Raise (mk_exn ClientOSError "Connection reset by peer"),
        if is_none (session veh1_args)
        then [EvSessionOpen 1;
              EvGet 1 "http://localhost:5055" veh1_params
                (timeout veh1_args);
              EvSessionClose 1]
        else [EvGet 1 "http://localhost:5055" veh1_params
                (timeout veh1_args)]).
Proof.
  split; [vm_compute; reflexivity|]. split; [reflexivity|].
  split; [reflexivity|]. split; [reflexivity|]. split; [reflexivity|].
  split; [discriminate|].
  apply (unreadable_body_raises_read_error dropping veh1_args veh1_params
           "http://localhost:5055" 1 500
           (mk_exn ClientOSError "Connection reset by peer"));
    [vm_compute; reflexivity | reflexivity | reflexivity | reflexivity
    | reflexivity | discriminate].
Defined.

(** ** The order of the parameters *)

(** Without custom attributes the dictionary is the list of the supplied
    protocol fields in the order of the assignments: no assignment
    overwrites or moves an earlier entry. *)
Lemma build_params_ordered (a : args) :
  timestamp_encodable (timestamp a) = true ->
  build_params (without_custom a) = Return (ordered_fields a).
Proof.
  intros T. unfold build_params, ordered_fields, entry, set_if_given.
  cbn [without_custom timestamp device_id lat lon speed bearing altitude
       accuracy hdop battery charge valid driver_unique_id
       custom_attributes Dict.update fold_left].
  destruct (timestamp a) as [| | | | |d|]; try discriminate T;
    cbn [is_none encode_timestamp timestamp_entry timestamp_encodable] in *;
    [|destruct (timestamp_millis d) as [ms|]; [|discriminate T]];
    cbn [rbind];
    destruct (is_none (speed a)), (is_none (bearing a)),
      (is_none (altitude a)), (is_none (accuracy a)), (is_none (hdop a)),
      (is_none (battery a)), (is_none (charge a)), (is_none (valid a)),
      (is_none (driver_unique_id a)); reflexivity.
Qed.

Lemma keys_set (k : string) (v : value) (d : dict) :
  map fst (Dict.set k v d)
  = if Dict.mem k d then map fst d else (map fst d ++ [k])%list.
Proof.
  induction d as [|[k0 v0] d IH]; [reflexivity|].
  unfold Dict.mem in *. cbn.
  destruct (String.eqb k k0); [reflexivity|]. cbn. rewrite IH.
  now destruct (Dict.get k d).
Qed.

Lemma mem_false_not_in (k : string) (d : dict) :
  Dict.mem k d = false -> ~ In k (map fst d).
Proof.
  unfold Dict.mem. induction d as [|[k0 v0] d IH]; [intros _ []|]. cbn.
  destruct (String.eqb_spec k k0) as [->|Hne]; [discriminate|].
  intros H [E|Hin]; [now subst|now apply IH].
Qed.

(** [d.update(o)] leaves the keys of [d] where they are and puts the new
    keys of [o] behind them, in the order of [o]. *)
Lemma keys_update (o : dict) :
  Dict.unique_keys o = true ->
  forall d,
    map fst (Dict.update d o)
    = (map fst d
         ++ filter (fun k => negb (Dict.mem k d)) (map fst o))%list.
Proof.
  induction o as [|[k v] o IH]; intros U d.
  - cbn. now rewrite app_nil_r.
  - cbn in U. apply andb_true_iff in U as [Hk Uo].
    apply negb_true_iff in Hk.
    rewrite DictFacts.update_cons, (IH Uo), keys_set. cbn [map fst filter].
    assert (filter (fun k' => negb (Dict.mem k' (Dict.set k v d)))
                   (map fst o)
            = filter (fun k' => negb (Dict.mem k' d)) (map fst o)) as ->.
    { apply filter_ext_in. intros k' Hin. rewrite DictFacts.mem_set.
      destruct (String.eqb_spec k' k) as [->|_]; [|reflexivity].
      now contradiction (mem_false_not_in k o Hk). }
    destruct (Dict.mem k d); cbn [negb]; [reflexivity|].
    now rewrite <- app_assoc.
Qed.

(** X8.  The parameters of a call come in a fixed order: first the
    supplied protocol fields in the order id, lat, lon, timestamp, speed,
    bearing, altitude, accuracy, hdop, batt, charge, valid, driverUniqueId;
    then the custom attributes whose key is new, in the order of the call.
    A custom attribute that collides with a protocol key takes the place
    of that key and is not moved to the end. *)
Theorem parameters_in_order (c : call) (a : args) :
  bind_arguments c = Return a ->
  timestamp_encodable (timestamp a) = true ->
  exists params,
    build_params a = Return params
    /\ params = Dict.update (ordered_fields a) (custom_attributes a)
    /\ map fst params
       = (map fst (ordered_fields a)
            ++ filter (fun k => negb (Dict.mem k (ordered_fields a)))
                 (map fst (custom_attributes a)))%list.
Proof.
  intros B T. eexists. split; [|split; [reflexivity|]].
  - now rewrite build_params_custom_last, (build_params_ordered a T).
  - apply keys_update. exact (custom_attributes_unique c a B).
Qed.

Example rooms_order :
  build_params rooms_args
  = Return [("id", VStr "veh-1"); ("lat", VInt 10); ("lon", VInt 20);
            ("speed", VInt 0); ("batt", VInt 3); ("room", VStr "kitchen");
            ("cleaning_mode", VStr "auto")].
Proof. reflexivity. Qed.

Lemma parameters_in_order_witness :
  bind_arguments rooms_call = Return rooms_args
  /\ timestamp_encodable (timestamp rooms_args) = true
  /\ exists params,
       build_params rooms_args = Return params
       /\ params
          = Dict.update (ordered_fields rooms_args)
              (custom_attributes rooms_args)
       /\ map fst params
          = (map fst (ordered_fields rooms_args)
               ++ filter
                    (fun k => negb (Dict.mem k (ordered_fields rooms_args)))
                    (map fst (custom_attributes rooms_args)))%list.
Proof.
  split; [reflexivity|]. split; [reflexivity|].
  apply (parameters_in_order rooms_call rooms_args); reflexivity.
Defined.

(** ** The message of a refused report *)

Lemma app_inv_prefix (s a b : string) : s ++ a = s ++ b -> a = b.
Proof.
  induction s as [|c s IH]; [trivial|]. cbn. intros [= H]. now apply IH.
Qed.

Lemma split_at_colon (s s' r r' : string) :
  no_colon s = true ->
  no_colon s' = true ->
  s ++ String ":" r = s' ++ String ":" r' ->
  s = s' /\ r = r'.
Proof.
  revert s'. induction s as [|c s IH]; intros [|c' s'] N N' E; cbn in *.
  - injection E as <-. now split.
  - injection E as <- _. discriminate N'.
  - injection E as -> _. discriminate N.
  - injection E as <- E.
    apply andb_true_iff in N as [_ N]. apply andb_true_iff in N' as [_ N'].
    destruct (IH s' N N' E) as [-> ->]. now split.
Qed.

Lemma no_colon_digits (d : Decimal.uint) :
  no_colon (NilEmpty.string_of_uint d) = true.
Proof. induction d; cbn; trivial. Qed.

Lemma no_colon_str_of_Z (n : Z) : no_colon (str_of_Z n) = true.
Proof.
  unfold str_of_Z, NilZero.string_of_int, NilZero.string_of_uint.
  destruct (Z.to_int n) as [d|d]; destruct d; cbn;
    try reflexivity; apply no_colon_digits.
Qed.

Lemma str_of_Z_inj (n m : Z) : str_of_Z n = str_of_Z m -> n = m.
Proof.
  unfold str_of_Z. intros E.
  assert (forall z, Z.to_int z <> Decimal.Pos Decimal.Nil
                    /\ Z.to_int z <> Decimal.Neg Decimal.Nil) as NN.
  { intros [|q|q]; cbn; split; try discriminate;
      intros [= H]; now apply (Unsigned.to_uint_nonnil q). }
  pose proof (NilZero.isi (Z.to_int n) (proj1 (NN n)) (proj2 (NN n))) as In.
  pose proof (NilZero.isi (Z.to_int m) (proj1 (NN m)) (proj2 (NN m))) as Im.
  rewrite E in In. rewrite In in Im. injection Im as Im.
  rewrite <- (DecimalZ.of_to n), <- (DecimalZ.of_to m). now rewrite Im.
Qed.

(** X9.  The message of the [ClientError] raised for a status other than
    200 determines the status code and the body: two refusals with the
    same message have the same status and the same body. *)
Theorem failure_message_determines_status_and_body (status status' : Z)
    (body body' : string) :
  failure_message status body = failure_message status' body' ->
  status = status' /\ body = body'.
Proof.
  unfold failure_message. intros E. apply app_inv_prefix in E.
  change (str_of_Z status ++ String ":" (" " ++ body)
          = str_of_Z status' ++ String ":" (" " ++ body')) in E.
  apply split_at_colon in E as [Es Eb]; try apply no_colon_str_of_Z.
  split; [now apply str_of_Z_inj|]. now injection Eb.
Qed.

Lemma failure_message_determines_status_and_body_witness :
  failure_message 404 "unknown device" = failure_message 404 "unknown device"
  /\ 404 = 404 /\ "unknown device" = "unknown device".
Proof.
  split; [reflexivity|].
  apply (failure_message_determines_status_and_body 404 404
           "unknown device" "unknown device"). reflexivity.
Defined.

(** ** The glue without a URL *)

(** X10.  When [traccar_url] is not a string, as when the variable
    [TRACCAR_URL] is not set, no position report is ever sent: the handler
    raises [ValueError] (bad device id or coordinates) or [AttributeError]
    (the URL), creates no session and issues no request. *)
Theorem report_without_url_sends_nothing (w : env) (cfg : Main.config)
    (g : Main.globals) (e : Main.GpsPositionEvent) :
  (forall s, Main.cfg_traccar_url cfg <> VStr s) ->
  exists x,
    Main.sendGpsPositionToTraccar w cfg g e = (Raise x, [])
    /\ (exn_cls x = ValueError \/ exn_cls x = AttributeError).
Proof.
  intros N. unfold Main.sendGpsPositionToTraccar.
  rewrite (call_send_bound w _ _ (gps_call_bound cfg g e)).
  set (a := {| traccar_url := Main.cfg_traccar_url cfg |}).
  destruct (validate a) as [[]|x] eqn:V.
  - assert (build_params a
            = Return (Dict.update (ordered_fields a) [])) as P.
    { rewrite build_params_custom_last.
      now rewrite (build_params_ordered a eq_refl). }
    assert (strip_url (traccar_url a)
            = Raise (mk_exn AttributeError
                       "object has no attribute 'rstrip'")) as S.
    { subst a. cbn [traccar_url].
      destruct (Main.cfg_traccar_url cfg) as [| | | |s| |];
        try reflexivity. now contradiction (N s). }
    eexists. split; [now rewrite (send_bad_url w a _ _ [] V P S)|].
    right. reflexivity.
  - exists x. split; [now rewrite (send_invalid w a x [] V)|]. left.
    unfold validate in V.
    repeat match type of V with
           | (if ?b then _ else _) = _ => destruct b
           end; try discriminate V; now injection V as <-.
Qed.

Lemma report_without_url_sends_nothing_witness :
  (forall s, Main.cfg_traccar_url no_url <> VStr s)
  /\ exists x,
       Main.sendGpsPositionToTraccar accepting no_url Main.initial
         (Main.mk_gps (VInt 10) (VInt 20)) = (Raise x, [])
       /\ (exn_cls x = ValueError \/ exn_cls x = AttributeError).
Proof.
  split; [discriminate|].
  apply (report_without_url_sends_nothing accepting no_url Main.initial
           (Main.mk_gps (VInt 10) (VInt 20))). discriminate.
Defined.

(** ** What the handlers do *)

Lemma gps_handler_trace (w : env) (cfg : Main.config) (g : Main.globals)
    (e : Main.GpsPositionEvent) :
  handler_trace w (snd (Main.sendGpsPositionToTraccar w cfg g e)).
Proof.
  rewrite sendGps_trace.
  rewrite (call_send_bound w _ _ (gps_call_bound cfg g e)).
  set (a := {| traccar_url := Main.cfg_traccar_url cfg |}).
  destruct (reaches_request a) eqn:R.
  - destruct (reaches_request_inv a R) as (p & u & V & P & S).
    rewrite (send_trace w a p u (new_session w) V P S eq_refl).
    right. right. exists u, p.
    exists (snd (after_get (http_get w (new_session w) u p (timeout a)))).
    split; [|reflexivity].
    destruct (after_get_cases (http_get w (new_session w) u p (timeout a)))
      as [[x ->]|[-> _]]; [now left|now right].
  - left. exact (stops_early w a R).
Qed.

Lemma handler_trace_gets (w : env) (tr : trace) :
  handler_trace w tr ->
  (count is_get tr <= 1)%nat /\ count is_open tr = count is_close tr.
Proof.
  intros [->|[[line ->]|(u & p & out & [->| ->] & ->)]]; cbn; lia.
Qed.

(** X11.  In every run of the handlers, each handler does one of three
    things: nothing, print one line, or send one report through a session
    of its own, opened before the single request and closed after it (with
    the success line in between when the status is 200).  So the glue never
    reuses a session and never leaves one open, and the requests of a run
    are at most as many as its position events. *)
Theorem handlers_report_once (w : env) (cfg : Main.config)
    (g : Main.globals) (evs : list Main.device_event) :
  Forall (handler_trace w) (snd (Main.run w cfg g evs))
  /\ (count is_get (List.concat (snd (Main.run w cfg g evs)))
      <= count is_gps evs)%nat
  /\ count is_open (List.concat (snd (Main.run w cfg g evs)))
     = count is_close (List.concat (snd (Main.run w cfg g evs))).
Proof.
  revert g. induction evs as [|ev evs IH]; intros g.
  - cbn. repeat split; constructor.
  - cbn [Main.run]. destruct (Main.on_event w cfg g ev) as [g' t] eqn:E.
    specialize (IH g'). destruct (Main.run w cfg g' evs) as [g'' ts].
    cbn [snd List.concat] in *. destruct IH as (F & C & O).
    assert (handler_trace w t
            /\ (count is_get t <= (if is_gps ev then 1 else 0))%nat)
      as [Ht Ct].
    { destruct ev as [e|b|repr]; cbn in E; injection E as <- <-.
      - split; [apply gps_handler_trace|].
        exact (proj1 (handler_trace_gets w _
                        (gps_handler_trace w cfg g e))).
      - split; [now left|reflexivity].
      - split; [right; left; eauto|reflexivity]. }
    destruct (handler_trace_gets w t Ht) as [_ Ot].
    unfold count in *. rewrite !filter_app, !length_app.
    repeat split; [now constructor| |lia].
    cbn [filter]. destruct (is_gps ev); cbn [List.length] in *; lia.
Qed.

(** ** Binding a call *)

Lemma bind_positional_cases (c : call) (i : nat) (name : string) :
  (given_once c i name = true
   /\ exists v, bind_positional c i name = Return v)
  \/ (given_once c i name = false
      /\ exists msg,
           bind_positional c i name = Raise (mk_exn TypeError msg)).
Proof.
  unfold given_once, bind_positional.
  destruct (nth_error (pos_args c) i), (Dict.get name (kw_args c));
    [right|left|left|right]; split; eauto.
Qed.

(** X12.  A call binds to the signature exactly when it has at most four
    positional arguments, no keyword twice, and each of [traccar_url],
    [device_id], [lat] and [lon] once, by position or by keyword.  Every
    other call raises [TypeError] before the body runs: nothing is
    validated, created or sent. *)
Theorem binding_succeeds_iff (w : env) (c : call) :
  ((exists a, bind_arguments c = Return a)
   <-> ((List.length (pos_args c) <= 4)%nat
        /\ Dict.unique_keys (kw_args c) = true
        /\ given_once c 0 "traccar_url" = true
        /\ given_once c 1 "device_id" = true
        /\ given_once c 2 "lat" = true
        /\ given_once c 3 "lon" = true))
  /\ (forall e, bind_arguments c = Raise e ->
        exn_cls e = TypeError /\ call_send w c = (Raise e, [])).
Proof.
  assert ((exists a, bind_arguments c = Return a)
          \/ exists msg, bind_arguments c = Raise (mk_exn TypeError msg))
    as Cases.
  { unfold bind_arguments.
    destruct (4 <? List.length (pos_args c))%nat; [right; eauto|].
    destruct (Dict.unique_keys (kw_args c)); cbn [negb]; [|right; eauto].
    destruct (bind_positional_cases c 0 "traccar_url")
      as [(_ & v0 & ->)|(_ & m & ->)]; cbn [rbind]; [|right; eauto].
    destruct (bind_positional_cases c 1 "device_id")
      as [(_ & v1 & ->)|(_ & m & ->)]; cbn [rbind]; [|right; eauto].
    destruct (bind_positional_cases c 2 "lat")
      as [(_ & v2 & ->)|(_ & m & ->)]; cbn [rbind]; [|right; eauto].
    destruct (bind_positional_cases c 3 "lon")
      as [(_ & v3 & ->)|(_ & m & ->)]; cbn [rbind]; [|right; eauto].
    left. eauto. }
  split; [split|].
  - intros [a B]. unfold bind_arguments in B.
    destruct (Nat.ltb_spec 4 (List.length (pos_args c))) as [L|L];
      [discriminate B|].
    destruct (Dict.unique_keys (kw_args c)); cbn [negb] in B;
      [|discriminate B].
    destruct (bind_positional_cases c 0 "traccar_url")
      as [(G0 & v0 & E0)|(_ & m & E0)]; rewrite E0 in B; cbn [rbind] in B;
      [|discriminate B].
    destruct (bind_positional_cases c 1 "device_id")
      as [(G1 & v1 & E1)|(_ & m & E1)]; rewrite E1 in B; cbn [rbind] in B;
      [|discriminate B].
    destruct (bind_positional_cases c 2 "lat")
      as [(G2 & v2 & E2)|(_ & m & E2)]; rewrite E2 in B; cbn [rbind] in B;
      [|discriminate B].
    destruct (bind_positional_cases c 3 "lon")
      as [(G3 & v3 & E3)|(_ & m & E3)]; rewrite E3 in B; cbn [rbind] in B;
      [|discriminate B].
    repeat split; trivial.
  - intros (L & U & G0 & G1 & G2 & G3). unfold bind_arguments.
    destruct (Nat.ltb_spec 4 (List.length (pos_args c))) as [L'|_]; [lia|].
    rewrite U. cbn [negb].
    destruct (bind_positional_cases c 0 "traccar_url")
      as [(_ & v0 & ->)|(G & _)]; [|congruence].
    destruct (bind_positional_cases c 1 "device_id")
      as [(_ & v1 & ->)|(G & _)]; [|congruence].
    destruct (bind_positional_cases c 2 "lat")
      as [(_ & v2 & ->)|(G & _)]; [|congruence].
    destruct (bind_positional_cases c 3 "lon")
      as [(_ & v3 & ->)|(G & _)]; [|congruence].
    cbn [rbind]. eauto.
  - intros e B. split; [|unfold call_send; now rewrite B].
    destruct Cases as [[a B']|[msg B']]; rewrite B' in B;
      [discriminate B|]. now injection B as <-.
Qed.

Example unbound_call_raises :
  call_send accepting unbound_call
  = (Raise (mk_exn TypeError
       "send_osmand_position() missing required positional argument: 'lon'"),
     []).
Proof. reflexivity. Qed.
